(** * A feed-forward network "from scratch": model of the notebook's NumPy code

    The notebook [2-Instructor-deep-learning-from-scratch-pytorch.ipynb]
    defines [initialize_model], [g], [g_prime], [loss_prime], [forward],
    [backward] and [update] over a Python [dict] holding lists of NumPy
    arrays.  This file embeds those functions and proves (or refutes) the
    statements of the specification about them.

    - float64 arithmetic is kept abstract behind the interface [Float]; all
      results hold for every implementation of it.  An instance over the
      real numbers is used for concrete runs.
    - a 2-D array is its shape together with its row-major buffer.
    - [np.random.randn] makes the checks NumPy makes on the extents of a new
      array and asks an allocator, which may refuse, for its data block; the
      arrays that [forward] and [backward] compute from existing ones are
      taken to fit in memory.
    - the model dict is a [gmap string value]; the functions that mutate it
      are written in a state-and-exception monad whose state survives a
      raised exception, as a mutated Python object does. *)

From stdpp Require Import gmap strings list.
From Stdlib Require Import ZArith Reals.

Local Open Scope Z_scope.
Local Open Scope nat_scope.

(** ** Python exceptions *)

Inductive value_error : Type :=
| NegativeDimensions   (* "negative dimensions are not allowed" *)
| DimensionExceeded    (* "Maximum allowed dimension exceeded" *)
| ArrayTooBig          (* "array is too big; `arr.size * arr.dtype.itemsize`
                          is larger than the maximum possible size." *)
| ShapeMismatch.       (* matmul core-dimension / broadcasting mismatch *)

Inductive exn : Type :=
| KeyError (key : string)
| IndexError
| TypeError
| ValueError (why : value_error)
| MemoryError.

(** Pure computations that may raise. *)
Definition result (A : Type) : Type := exn + A.

Definition rbind {A B} (r : result A) (k : A → result B) : result B :=
  match r with
  | inl e => inl e
  | inr a => k a
  end.

Notation "'let?' x := r 'in' k" := (rbind r (fun x => k))
  (at level 10, x pattern, r at level 100, k at level 200).

(** Computations over a mutable object of type [S]: the final state is
    returned in both outcomes. *)
Definition M (S A : Type) : Type := S → result A * S.

Definition ret {S A} (a : A) : M S A := fun s => (inr a, s).

Definition raise {S A} (e : exn) : M S A := fun s => (inl e, s).

Definition bind {S A B} (c : M S A) (k : A → M S B) : M S B :=
  fun s => match c s with
           | (inl e, s') => (inl e, s')
           | (inr a, s') => k a s'
           end.

Definition lift {S A} (r : result A) : M S A := fun s => (r, s).

Notation "x <- c ;; k" := (bind c (fun x => k))
  (at level 100, c at next level, right associativity).
Notation "c ;; k" := (bind c (fun _ => k))
  (at level 100, right associativity).

(** ** Python lists: indexing and slicing with a step of -1 *)

Definition py_index {A} (l : list A) (i : Z) : result A :=
  let n := Z.of_nat (length l) in
  let i' := if (i <? 0)%Z then (i + n)%Z else i in
  if ((0 <=? i') && (i' <? n))%Z
  then match l !! Z.to_nat i' with
       | Some x => inr x
       | None => inl IndexError
       end
  else inl IndexError.

(** CPython's index adjustment for a slice bound when the step is negative. *)
Definition adjust_neg_step (len i : Z) : Z :=
  if (i <? 0)%Z
  then (if (i + len <? 0)%Z then -1 else i + len)%Z
  else (if (len <=? i)%Z then len - 1 else i)%Z.

(** [l[start:stop:-1]]; an omitted bound is [None]. *)
Definition py_slice_rev {A} (l : list A) (start stop : option Z) : list A :=
  let len := Z.of_nat (length l) in
  let s := match start with
           | Some i => adjust_neg_step len i
           | None => (len - 1)%Z
           end in
  let e := match stop with
           | Some j => adjust_neg_step len j
           | None => (-1)%Z
           end in
  rev (drop (Z.to_nat (e + 1)) (take (Z.to_nat (s + 1)) l)).

(** [range(n)] *)
Definition py_range (n : Z) : list Z := map Z.of_nat (seq 0 (Z.to_nat n)).

(** ** Scalars *)

Class Float (F : Type) : Type := {
  fzero : F;
  fone : F;
  fadd : F → F → F;
  fsub : F → F → F;
  fmul : F → F → F;
  fdiv : F → F → F;
  fneg : F → F;
  fexp : F → F
}.

#[export] Instance Float_R : Float R := {
  fzero := 0%R;
  fone := 1%R;
  fadd := Rplus;
  fsub := Rminus;
  fmul := Rmult;
  fdiv := Rdiv;
  fneg := Ropp;
  fexp := exp
}.

(** ** Arrays *)

Section Arrays.
Context {F : Type} `{Float F}.

Record ndarray : Type := mkArr {
  nrows : nat;
  ncols : nat;
  buf : list F
}.

Definition shape (A : ndarray) : nat * nat := (nrows A, ncols A).

Definition item (A : ndarray) (i j : nat) : F :=
  nth (i * ncols A + j) (buf A) fzero.

Definition tabulate (r c : nat) (f : nat → nat → F) : ndarray :=
  mkArr r c (flat_map (fun i => map (f i) (seq 0 c)) (seq 0 r)).

(** elementwise application of a scalar function *)
Definition amap (f : F → F) (A : ndarray) : ndarray :=
  mkArr (nrows A) (ncols A) (map f (buf A)).

(** [A.T] *)
Definition transpose (A : ndarray) : ndarray :=
  tabulate (ncols A) (nrows A) (fun i j => item A j i).

(** [np.ones((r, c))] *)
Definition ones (r c : nat) : ndarray := mkArr r c (repeat fone (r * c)).

(** [A @ B] and [np.dot(A, B)] on 2-D arrays.  NumPy leaves the order of
    the additions in each inner product to the BLAS routine; here they run
    left to right from [0.0].  No statement below depends on that order. *)
Definition matmul (A B : ndarray) : result ndarray :=
  if ncols A =? nrows B
  then inr (tabulate (nrows A) (ncols B) (fun i j =>
         fold_left fadd
           (map (fun k => fmul (item A i k) (item B k j)) (seq 0 (ncols A)))
           fzero))
  else inl (ValueError ShapeMismatch).

(** NumPy broadcasting of one axis *)
Definition broadcast_dim (d1 d2 : nat) : option nat :=
  if d1 =? d2 then Some d1
  else if d1 =? 1 then Some d2
  else if d2 =? 1 then Some d1
  else None.

Definition bitem (A : ndarray) (i j : nat) : F :=
  item A (if nrows A =? 1 then 0 else i) (if ncols A =? 1 then 0 else j).

(** elementwise binary operators [+], [-], [*] on two arrays *)
Definition zipwith (f : F → F → F) (A B : ndarray) : result ndarray :=
  match broadcast_dim (nrows A) (nrows B), broadcast_dim (ncols A) (ncols B) with
  | Some r, Some c => inr (tabulate r c (fun i j => f (bitem A i j) (bitem B i j)))
  | _, _ => inl (ValueError ShapeMismatch)
  end.

Definition add : ndarray → ndarray → result ndarray := zipwith fadd.
Definition sub : ndarray → ndarray → result ndarray := zipwith fsub.
Definition mul : ndarray → ndarray → result ndarray := zipwith fmul.

(** *** Activation and loss primitives *)

(** [1.0 / (1.0 + np.exp(-x))] *)
Definition g (x : ndarray) : ndarray :=
  amap (fdiv fone) (amap (fadd fone) (amap fexp (amap fneg x))).

(** [g(x)*(1-g(x))] *)
Definition g_prime (x : ndarray) : result ndarray :=
  mul (g x) (amap (fsub fone) (g x)).

(** [(yhat - y)] *)
Definition loss_prime (yhat y : ndarray) : result ndarray := sub yhat y.

(** ** Values stored in the model dict *)

Inductive value : Type :=
| VInt (n : Z)
| VList (l : list ndarray).

(** iterating over, or subscripting, a dict entry *)
Definition as_list (v : value) : result (list ndarray) :=
  match v with
  | VList l => inr l
  | VInt _ => inl TypeError
  end.

(** [model[k]] *)
Definition getitem (k : string) : M (gmap string value) value :=
  fun m => match m !! k with
           | Some v => (inr v, m)
           | None => (inl (KeyError k), m)
           end.

(** [model[k] = v] *)
Definition setitem (k : string) (v : value) : M (gmap string value) unit :=
  fun m => (inr tt, <[k := v]> m).

(** [del model[k]] *)
Definition delitem (k : string) : M (gmap string value) unit :=
  fun m => match m !! k with
           | Some _ => (inr tt, delete k m)
           | None => (inl (KeyError k), m)
           end.

(** [model[k]] followed by a use of the entry as a list *)
Definition getlist (k : string) : M (gmap string value) (list ndarray) :=
  v <- getitem k ;; lift (as_list v).

End Arrays.

Arguments ndarray F : clear implicits.
Arguments value F : clear implicits.

Abbreviation model F := (gmap string (value F)).

(** ** The extents of a new array

    NumPy holds extents and byte counts in [npy_intp], a signed 64-bit
    integer on the platforms the notebook runs on, and [float64] entries
    take 8 bytes. *)

Definition NPY_MAX_INTP : Z := (2 ^ 63 - 1)%Z.
Definition NPY_MIN_INTP : Z := (- 2 ^ 63)%Z.
Definition itemsize : Z := 8%Z.

(** the conversion of a Python [int] to [npy_intp] succeeds *)
Definition fits_intp (d : Z) : bool :=
  ((NPY_MIN_INTP <=? d) && (d <=? NPY_MAX_INTP))%Z.

(** The loop of the array constructor over the extents, multiplying them
    into the byte count [nbytes]: a zero extent is skipped, a negative one is
    refused, and so is a product that overflows [npy_intp]. *)
Fixpoint check_dims (dims : list Z) (nbytes : Z) : result Z :=
  match dims with
  | [] => inr nbytes
  | d :: rest =>
      if (d =? 0)%Z then check_dims rest nbytes
      else if (d <? 0)%Z then inl (ValueError NegativeDimensions)
      else if (NPY_MAX_INTP <? nbytes * d)%Z then inl (ValueError ArrayTooBig)
      else check_dims rest (nbytes * d)%Z
  end.

(** The extents [(r, c)] of an array NumPy agrees to build: none negative,
    and at most [NPY_MAX_INTP] bytes, counting a zero extent as one. *)
Definition valid_extents (r c : Z) : Prop :=
  (0 ≤ r ∧ 0 ≤ c ∧ itemsize * Z.max r 1 * Z.max c 1 ≤ NPY_MAX_INTP)%Z.

(** Layer [l+1] can be built: the extents of its weight matrix are valid and
    the allocator grants the weight matrix and the bias column. *)
Definition layer_fits (can_alloc : Z → bool) (dimensions : list Z) (l : nat) : Prop :=
  valid_extents (nth (S l) dimensions 0%Z) (nth l dimensions 0%Z)
  ∧ can_alloc (itemsize * nth (S l) dimensions 0 * nth l dimensions 0)%Z = true
  ∧ can_alloc (itemsize * nth (S l) dimensions 0)%Z = true.

(** How building layer [l+1] fails: with [MemoryError] when the extents are
    valid and a block is refused, with one of the constructor's
    [ValueError]s when they are not. *)
Definition fails_at (can_alloc : Z → bool) (dimensions : list Z) (l : nat) (e : exn) : Prop :=
  (e = MemoryError
   ∧ valid_extents (nth (S l) dimensions 0%Z) (nth l dimensions 0%Z)
   ∧ ¬ layer_fits can_alloc dimensions l)
  ∨ (∃ why, e = ValueError why ∧ why ≠ ShapeMismatch
            ∧ ¬ valid_extents (nth (S l) dimensions 0%Z) (nth l dimensions 0%Z)).

(** ** The notebook's functions *)

Section Network.
Context {F : Type} `{Float F}.

(** The global NumPy random generator: its state and one standard-normal
    draw. *)
Context {rng : Type} (gauss : rng → F * rng).

(** The memory allocator: whether a data block of the given number of bytes
    is granted.  It decides between a new array and [MemoryError] where the
    caller's integers give the size of the array. *)
Context (can_alloc : Z → bool).

Fixpoint draws (k : nat) (s : rng) : list F * rng :=
  match k with
  | O => ([], s)
  | S k' => let '(x, s1) := gauss s in
            let '(xs, s2) := draws k' s1 in
            (x :: xs, s2)
  end.

(** [np.random.randn(r, c)]: the two extents are converted to [npy_intp],
    [np.empty((r, c), np.double)] checks them and allocates the array, and
    the generator fills it in row-major order. *)
Definition randn (r c : Z) : M rng (ndarray F) :=
  fun s =>
    if negb (fits_intp r && fits_intp c)
    then (inl (ValueError DimensionExceeded), s)
    else match check_dims [r; c] itemsize with
         | inl e => (inl e, s)
         | inr _ =>
             if can_alloc (itemsize * r * c)%Z
             then let '(xs, s') := draws (Z.to_nat r * Z.to_nat c) s in
                  (inr (mkArr (Z.to_nat r) (Z.to_nat c) xs), s')
             else (inl MemoryError, s)
         end.

(** *** [initialize_model] *)

(** the body of [for l in range(L)] *)
Fixpoint init_loop (dimensions : list Z) (ls : list Z)
    (weights biases : list (ndarray F)) : M rng (list (ndarray F) * list (ndarray F)) :=
  match ls with
  | [] => ret (weights, biases)
  | l :: ls' =>
      d1 <- lift (py_index dimensions (l + 1)%Z) ;;
      d0 <- lift (py_index dimensions l) ;;
      W <- randn d1 d0 ;;
      d1' <- lift (py_index dimensions (l + 1)%Z) ;;
      b <- randn d1' 1%Z ;;
      init_loop dimensions ls' (weights ++ [W]) (biases ++ [b])
  end.

Definition initialize_model (dimensions : list Z) : M rng (model F) :=
  let L := (Z.of_nat (length dimensions) - 1)%Z in
  wb <- init_loop dimensions (py_range L) [] [] ;;
  ret (<["nlayers" := VInt L]>
       (<["biases" := VList wb.2]>
        (<["weights" := VList wb.1]> ∅))).

(** *** [forward] *)

(** the body of [for W, b in zip(...)] *)
Fixpoint forward_loop (its : list (ndarray F * ndarray F)) (a : ndarray F)
    (activations zs : list (ndarray F))
    : result (ndarray F * list (ndarray F) * list (ndarray F)) :=
  match its with
  | [] => inr (a, activations, zs)
  | (W, b) :: rest =>
      let? p := matmul W a in
      let? z := add p b in
      let a' := g z in
      forward_loop rest a' (activations ++ [a']) (zs ++ [z])
  end.

(** The returned pair [(a, model)] is the result [a] and the final state:
    [model] is the dict that was passed in. *)
Definition forward (x : ndarray F) : M (model F) (ndarray F) :=
  vw <- getitem "weights" ;;
  vb <- getitem "biases" ;;
  ws <- lift (as_list vw) ;;
  bs <- lift (as_list vb) ;;
  r <- lift (forward_loop (zip ws bs) x [x] []) ;;
  setitem "activations" (VList r.1.2) ;;
  setitem "w_inputs" (VList r.2) ;;
  ret r.1.1.

(** *** [backward] *)

(** the body of [for W, z, a in loop_iterates] *)
Fixpoint backward_loop (Nbatch : nat)
    (its : list (ndarray F * ndarray F * ndarray F)) (delta : ndarray F)
    (grad_weights grad_biases : list (ndarray F))
    : result (list (ndarray F) * list (ndarray F)) :=
  match its with
  | [] => inr (grad_weights, grad_biases)
  | (W, z, a) :: rest =>
      let? t := matmul (transpose W) delta in
      let? gp := g_prime z in
      let? delta' := mul t gp in
      let? grad_b := matmul delta' (ones Nbatch 1) in
      let? grad_W := matmul delta' (transpose a) in
      backward_loop Nbatch rest delta' (grad_weights ++ [grad_W]) (grad_biases ++ [grad_b])
  end.

(** [zip(weights[-1:0:-1], w_inputs[-2::-1], activations[-3::-1])] *)
Definition loop_iterates (weights w_inputs activations : list (ndarray F))
    : list (ndarray F * ndarray F * ndarray F) :=
  zip (zip (py_slice_rev weights (Some (-1)%Z) (Some 0%Z))
           (py_slice_rev w_inputs (Some (-2)%Z) None))
      (py_slice_rev activations (Some (-3)%Z) None).

(** The returned [model] is the final state. *)
Definition backward (y : ndarray F) : M (model F) unit :=
  let Nbatch := ncols y in
  acts <- getlist "activations" ;;
  yhat <- lift (py_index acts (-1)%Z) ;;
  zs <- getlist "w_inputs" ;;
  z <- lift (py_index zs (-1)%Z) ;;
  acts' <- getlist "activations" ;;
  a <- lift (py_index acts' (-2)%Z) ;;
  lp <- lift (loss_prime yhat y) ;;
  gp <- lift (g_prime z) ;;
  delta <- lift (mul lp gp) ;;
  grad_b <- lift (matmul delta (ones Nbatch 1)) ;;
  grad_W <- lift (matmul delta (transpose a)) ;;
  ws <- getlist "weights" ;;
  zs' <- getlist "w_inputs" ;;
  acts'' <- getlist "activations" ;;
  r <- lift (backward_loop Nbatch (loop_iterates ws zs' acts'') delta [grad_W] [grad_b]) ;;
  setitem "grad_weights" (VList (py_slice_rev r.1 None None)) ;;
  setitem "grad_biases" (VList (py_slice_rev r.2 None None)).

(** *** [update] *)

(** [for key in keys: del model[key]] *)
Fixpoint del_keys (keys : list string) : M (model F) unit :=
  match keys with
  | [] => ret tt
  | key :: keys' => delitem key ;; del_keys keys'
  end.

(** the body of [for W, b, dW, db in zip(...)] *)
Fixpoint update_loop (eta : F)
    (its : list (ndarray F * ndarray F * ndarray F * ndarray F))
    (new_weights new_biases : list (ndarray F))
    : result (list (ndarray F) * list (ndarray F)) :=
  match its with
  | [] => inr (new_weights, new_biases)
  | (W, b, dW, db) :: rest =>
      let? W' := sub W (amap (fmul eta) dW) in
      let? b' := sub b (amap (fmul eta) db) in
      update_loop eta rest (new_weights ++ [W']) (new_biases ++ [b'])
  end.

Definition update (eta : F) : M (model F) unit :=
  del_keys ["activations"; "w_inputs"; "grad_weights"; "grad_biases"] ;;
  vw <- getitem "weights" ;;
  vb <- getitem "biases" ;;
  vdw <- getitem "grad_weights" ;;
  vdb <- getitem "grad_biases" ;;
  ws <- lift (as_list vw) ;;
  bs <- lift (as_list vb) ;;
  dws <- lift (as_list vdw) ;;
  dbs <- lift (as_list vdb) ;;
  r <- lift (update_loop eta (zip (zip (zip ws bs) dws) dbs) [] []) ;;
  setitem "weights" (VList r.1) ;;
  setitem "biases" (VList r.2).

(** One epoch of the training loop: [forward], [backward], [update]. *)
Definition train_step (eta : F) (x y : ndarray F) : M (model F) (ndarray F) :=
  yhat <- forward x ;;
  backward y ;;
  update eta ;;
  ret yhat.

End Network.

(** ** Shapes of a model built for a list of layer widths *)

Section Shapes.
Context {F : Type} `{Float F}.

(** [dimensions[i]] as an array extent *)
Definition dim_at (dimensions : list Z) (i : nat) : nat :=
  Z.to_nat (nth i dimensions 0%Z).

(** Weight [i] (0-based) is [dimensions[i+1]] by [dimensions[i]] and bias
    [i] is a column of [dimensions[i+1]] entries, for every layer. *)
Definition params_shaped (dimensions : list Z) (ws bs : list (ndarray F)) : Prop :=
  length ws = length dimensions - 1
  ∧ length bs = length dimensions - 1
  ∧ ∀ i, i < length dimensions - 1 →
      ∃ W b, ws !! i = Some W ∧ bs !! i = Some b
             ∧ shape W = (dim_at dimensions (S i), dim_at dimensions i)
             ∧ shape b = (dim_at dimensions (S i), 1).

(** Entry [i] of [l] has [dimensions[off + i]] rows and [n] columns. *)
Definition cols_shaped (dimensions : list Z) (off n : nat) (l : list (ndarray F)) : Prop :=
  ∀ i A, l !! i = Some A → shape A = (dim_at dimensions (off + i), n).

End Shapes.

(** ** The error terms of back-propagation, as the specification words them

    Layers are numbered from 1 to L; [W_l] is [ws !! (l - 1)], [z_l] is
    [zs !! (l - 1)] and [a_l] is [activations !! l].  The output layer has
    [delta_L = loss_prime(a_L, y) * g_prime(z_L)], and below it
    [delta_l = (W_(l+1)).T @ delta_(l+1) * g_prime(z_l)] for [1 <= l < L]. *)

Section ErrorTerms.
Context {F : Type} `{Float F}.
Variables (ws zs activations : list (ndarray F)) (y : ndarray F).

Inductive spec_delta : nat → ndarray F → Prop :=
| delta_output aL zL lg gp d :
    activations !! length ws = Some aL →
    zs !! (length ws - 1) = Some zL →
    loss_prime aL y = inr lg →
    g_prime zL = inr gp →
    mul lg gp = inr d →
    spec_delta (length ws) d
| delta_hidden l W z d t gp d' :
    1 ≤ l →
    spec_delta (S l) d →
    ws !! l = Some W →
    zs !! (l - 1) = Some z →
    matmul (transpose W) d = inr t →
    g_prime z = inr gp →
    mul t gp = inr d' →
    spec_delta l d'.

End ErrorTerms.

(** ** State of the loop of [forward] *)

Section ForwardState.
Context {F : Type} `{Float F}.
Variables (ws bs : list (ndarray F)) (dimensions : list Z).
Variables (x : ndarray F) (n : nat).

(** The state of the loop of [forward] after [j] layers: [a] is the last
    activation, and every recorded layer obeys [z = W @ a + b],
    [a' = g(z)]. *)
Definition forward_inv (j : nat) (a : ndarray F) (activations zs : list (ndarray F)) : Prop :=
  length activations = S j
  ∧ length zs = j
  ∧ activations !! 0 = Some x
  ∧ activations !! j = Some a
  ∧ cols_shaped dimensions 0 n activations
  ∧ cols_shaped dimensions 1 n zs
  ∧ ∀ l W b, l < j → ws !! l = Some W → bs !! l = Some b →
      ∃ a0 p z, activations !! l = Some a0
                ∧ matmul W a0 = inr p ∧ add p b = inr z
                ∧ zs !! l = Some z ∧ activations !! S l = Some (g z).

End ForwardState.

(** ** State of the loop of [backward]

    The loop appends gradients from the output layer down: after [c] layers
    entry [k] of each list belongs to layer [L - k]. *)

Section BackwardState.
Context {F : Type} `{Float F}.
Variables (dimensions : list Z) (ws zs activations : list (ndarray F)).
Variables (y : ndarray F) (n : nat).

Definition grads_inv (c : nat) (grad_weights grad_biases : list (ndarray F)) : Prop :=
  length grad_weights = c
  ∧ length grad_biases = c
  ∧ ∀ k, k < c →
      ∃ d a gw gb,
        spec_delta ws zs activations y (length ws - k) d
        ∧ activations !! (length ws - 1 - k) = Some a
        ∧ grad_weights !! k = Some gw
        ∧ grad_biases !! k = Some gb
        ∧ matmul d (ones n 1) = inr gb
        ∧ matmul d (transpose a) = inr gw
        ∧ shape gw = (dim_at dimensions (length ws - k), dim_at dimensions (length ws - 1 - k))
        ∧ shape gb = (dim_at dimensions (length ws - k), 1).

End BackwardState.

(** ** A concrete run over the reals

    The generator state is a counter; draw number [k] returns [k] as a real. *)

Definition ex_gauss (k : nat) : R * nat := (INR k, S k).

(** an allocator that grants blocks of up to 1 GiB *)
Definition ex_can_alloc (nbytes : Z) : bool := (nbytes <=? 2 ^ 30)%Z.

(** [initialize_model([5])] *)
Definition ex_model_5 : model R :=
  <["nlayers" := VInt 0]> (<["biases" := VList []]> (<["weights" := VList []]> ∅)).

(** [initialize_model([3, 0])]: one layer with no units *)
Definition ex_model_3_0 : model R :=
  <["nlayers" := VInt 1]>
    (<["biases" := VList [mkArr 0 1 []]]> (<["weights" := VList [mkArr 0 3 []]]> ∅)).

(** [initialize_model([2, 1])]: weights [[0, 1]], bias [[2]] *)
Definition ex_model_2_1 : model R :=
  <["nlayers" := VInt 1]>
    (<["biases" := VList [mkArr 1 1 [INR 2]]]>
       (<["weights" := VList [mkArr 1 2 [INR 0; INR 1]]]> ∅)).

(** an input batch of one sample for [ex_model_2_1], and one with a row too
    many *)
Definition ex_x : ndarray R := mkArr 2 1 [1%R; 1%R].
Definition ex_x_bad : ndarray R := mkArr 3 1 [1%R; 1%R; 1%R].

(** a target for the single output unit *)
Definition ex_y : ndarray R := mkArr 1 1 [1%R].

(** the state of [ex_model_2_1] after [forward(ex_x, model)] *)
Definition ex_z : ndarray R := mkArr 1 1 [(0 + INR 0 * 1 + INR 1 * 1 + INR 2)%R].
Definition ex_out : ndarray R := g ex_z.
Definition ex_model_fwd : model R :=
  <["w_inputs" := VList [ex_z]]> (<["activations" := VList [ex_x; ex_out]]> ex_model_2_1).

(** a model that also holds gradient entries *)
Definition ex_model_bwd : model R :=
  <["grad_biases" := VList [mkArr 1 1 [0%R]]]>
    (<["grad_weights" := VList [mkArr 1 2 [0%R; 0%R]]]> ex_model_fwd).

(** ** The loss and the training loops *)

Section Training.
Context {F : Type} `{Float F}.

(** the literal [0.5], as [1.0 / (1.0 + 1.0)] *)
Definition fhalf : F := fdiv fone (fadd fone fone).

(** [np.square(A)] *)
Definition square (A : ndarray F) : ndarray F := amap (fun v => fmul v v) A.

(** [A.sum()].  NumPy sums pairwise; here the additions run left to right
    from [0.0]. *)
Definition asum (A : ndarray F) : F := fold_left fadd (buf A) fzero.

(** [0.5 * np.square(yhat-y).sum()] *)
Definition loss (yhat y : ndarray F) : result F :=
  let? d := sub yhat y in
  inr (fmul fhalf (asum (square d))).

(** The loops run on the model dict and on what they have reported so far:
    the printed lines of the first loop, as pairs of epoch and loss, and the
    lists [epochs] and [losses] of the second. *)
Definition on_model {S A} (c : M (model F) A) : M (model F * S) A :=
  fun st => let '(r, m') := c st.1 in (r, (m', st.2)).

(** [print(f'Epoch: {epoch}\tLoss: {err}')] *)
Definition print_line (epoch : Z) (err : F) : M (model F * list (Z * F)) unit :=
  fun st => (inr tt, (st.1, st.2 ++ [(epoch, err)])).

(** the body of the first [for epoch in range(n_epochs)] *)
Fixpoint train_epochs (epochs : list Z) (eta : F) (X y : ndarray F)
    : M (model F * list (Z * F)) unit :=
  match epochs with
  | [] => ret tt
  | epoch :: rest =>
      yhat <- on_model (forward X) ;;
      on_model (backward y) ;;
      on_model (update eta) ;;
      err <- lift (loss yhat y) ;;
      print_line epoch err ;;
      train_epochs rest eta X y
  end.

Definition train (n_epochs : Z) (eta : F) (X y : ndarray F)
    : M (model F * list (Z * F)) unit :=
  train_epochs (py_range n_epochs) eta X y.

(** [epochs.append(epoch); losses.append(err)] *)
Definition record (epoch : Z) (err : F) : M (model F * (list Z * list F)) unit :=
  fun st => (inr tt, (st.1, (st.2.1 ++ [epoch], st.2.2 ++ [err]))).

(** the body of the second loop, which reports every 500 epochs *)
Fixpoint train_plot_epochs (epochs : list Z) (eta : F) (X y : ndarray F)
    : M (model F * (list Z * list F)) unit :=
  match epochs with
  | [] => ret tt
  | epoch :: rest =>
      yhat <- on_model (forward X) ;;
      on_model (backward y) ;;
      on_model (update eta) ;;
      (if (epoch `mod` 500 =? 0)%Z
       then err <- lift (loss yhat y) ;; record epoch err
       else ret tt) ;;
      train_plot_epochs rest eta X y
  end.

Definition train_plot (n_epochs : Z) (eta : F) (X y : ndarray F)
    : M (model F * (list Z * list F)) unit :=
  train_plot_epochs (py_range n_epochs) eta X y.

End Training.

(** ** What [backward] computes between its reads and its writes

    The dict entries ['activations'], ['w_inputs'] and ['weights'] being
    [activations], [zs] and [ws], this is the pair of gradient lists as the
    loop leaves them, before they are reversed and stored. *)

Section BackwardCore.
Context {F : Type} `{Float F}.

Definition backward_core (y : ndarray F) (activations zs ws : list (ndarray F))
    : result (list (ndarray F) * list (ndarray F)) :=
  let? yhat := py_index activations (-1)%Z in
  let? z := py_index zs (-1)%Z in
  let? a := py_index activations (-2)%Z in
  let? lp := loss_prime yhat y in
  let? gp := g_prime z in
  let? delta := mul lp gp in
  let? grad_b := matmul delta (ones (ncols y) 1) in
  let? grad_W := matmul delta (transpose a) in
  backward_loop (ncols y) (loop_iterates ws zs activations) delta [grad_W] [grad_b].

End BackwardCore.

(** [np.zeros((r, c))] *)
Definition zeros {F : Type} `{Float F} (r c : nat) : ndarray F :=
  mkArr r c (repeat fzero (r * c)).

(** The buffer of an array holds one entry per position of its shape, as
    NumPy guarantees for every array it builds. *)
Definition well_formed {F : Type} (A : ndarray F) : Prop :=
  length (buf A) = nrows A * ncols A.

(** The number of values [initialize_model] draws: for each layer, one per
    entry of the weight matrix and one per entry of the bias column. *)
Definition draw_count (dimensions : list Z) : nat :=
  foldr Nat.add 0
    (map (λ l, dim_at dimensions (S l) * dim_at dimensions l
               + dim_at dimensions (S l) * 1)
         (seq 0 (length dimensions - 1))).

(** ** More concrete data over the reals *)

(** [initialize_model([1, 2])]: weights [[0], [1]], biases [[2], [3]] *)
Definition ex_model_1_2 : model R :=
  <["nlayers" := VInt 1]>
    (<["biases" := VList [mkArr 2 1 [INR 2; INR 3]]]>
       (<["weights" := VList [mkArr 2 1 [INR 0; INR 1]]]> ∅)).

(** one sample of one feature, and the state after [forward] on it *)
Definition ex_x1 : ndarray R := mkArr 1 1 [1%R].
Definition ex_z2 : ndarray R :=
  mkArr 2 1 [(0 + INR 0 * 1 + INR 2)%R; (0 + INR 1 * 1 + INR 3)%R].
Definition ex_out2 : ndarray R := g ex_z2.
Definition ex_model_1_2_fwd : model R :=
  <["w_inputs" := VList [ex_z2]]> (<["activations" := VList [ex_x1; ex_out2]]> ex_model_1_2).

(** a target with one column too many for a batch of one sample *)
Definition ex_y_wide : ndarray R := mkArr 1 2 [1%R; 1%R].

(** the dict that [backward(ex_y, ...)] leaves after [forward] *)
Definition ex_model_grads : model R := (backward ex_y ex_model_fwd).2.

(** * Properties *)

(** ** Monad and dict plumbing *)

Section Plumbing.
Context {F : Type} `{Float F}.

Lemma bind_inr {S A B} (c : M S A) (k : A → M S B) s a s' :
  c s = (inr a, s') → bind c k s = k a s'.
Proof. intros E. unfold bind. by rewrite E. Qed.

Lemma bind_inl {S A B} (c : M S A) (k : A → M S B) s e s' :
  c s = (inl e, s') → bind c k s = (inl e, s').
Proof. intros E. unfold bind. by rewrite E. Qed.

Lemma lift_inr {S A} (r : result A) (a : A) (s : S) :
  r = inr a → lift r s = (inr a, s).
Proof. by intros ->. Qed.

Lemma getitem_Some k (m : model F) v :
  m !! k = Some v → getitem k m = (inr v, m).
Proof. intros E. unfold getitem. by rewrite E. Qed.

Lemma getitem_None k (m : model F) :
  m !! k = None → getitem k m = (inl (KeyError k), m).
Proof. intros E. unfold getitem. by rewrite E. Qed.

Lemma getlist_Some k (m : model F) l :
  m !! k = Some (VList l) → getlist k m = (inr l, m).
Proof. intros E. unfold getlist. by rewrite (bind_inr _ _ _ _ _ (getitem_Some _ _ _ E)). Qed.

Lemma getlist_None k (m : model F) :
  m !! k = None → getlist k m = (inl (KeyError k), m).
Proof. intros E. unfold getlist. by rewrite (bind_inl _ _ _ _ _ (getitem_None _ _ E)). Qed.

Lemma delitem_Some k (m : model F) v :
  m !! k = Some v → delitem k m = (inr tt, delete k m).
Proof. intros E. unfold delitem. by rewrite E. Qed.

(** The keys [update] deletes, with every key present. *)
Lemma del_keys_transients (m : model F) va vz vgw vgb :
  m !! "activations" = Some va →
  m !! "w_inputs" = Some vz →
  m !! "grad_weights" = Some vgw →
  m !! "grad_biases" = Some vgb →
  del_keys ["activations"; "w_inputs"; "grad_weights"; "grad_biases"] m
  = (inr tt, delete "grad_biases" (delete "grad_weights"
               (delete "w_inputs" (delete "activations" m)))).
Proof.
  intros Ha Hz Hgw Hgb. cbn [del_keys]. unfold bind, delitem, ret.
  rewrite Ha.
  rewrite lookup_delete_ne, Hz by done.
  rewrite !lookup_delete_ne, Hgw by done.
  rewrite !lookup_delete_ne, Hgb by done.
  done.
Qed.

(** [del_keys] either raises [KeyError] or removes every listed key; it
    touches no other key. *)
Lemma del_keys_outcome keys (m : model F) :
  (∃ key m', del_keys keys m = (inl (KeyError key), m')
             ∧ ∀ k, k ∉ keys → m' !! k = m !! k)
  ∨ (∃ m', del_keys keys m = (inr tt, m')
           ∧ (∀ k, k ∈ keys → m' !! k = None)
           ∧ ∀ k, k ∉ keys → m' !! k = m !! k).
Proof.
  revert m. induction keys as [|key keys IH]; intros m.
  - right. exists m. split; [done|]. split; [|done]. intros k Hk. by apply elem_of_nil in Hk.
  - cbn [del_keys]. destruct (m !! key) as [v|] eqn:E.
    + rewrite (bind_inr _ _ _ _ _ (delitem_Some _ _ _ E)).
      destruct (IH (delete key m)) as [(k' & m' & -> & Hm')|(m' & -> & Hin & Hout)].
      * left. exists k', m'. split; [done|]. intros k Hk.
        apply not_elem_of_cons in Hk as [Hne Hk].
        rewrite Hm'; [|done]. by rewrite lookup_delete_ne.
      * right. exists m'. split; [done|]. split.
        -- intros k Hk. destruct (decide (k ∈ keys)) as [Hi|Hni]; [by apply Hin|].
           apply elem_of_cons in Hk as [->|Hk]; [|done].
           rewrite Hout; [|done]. apply lookup_delete_eq.
        -- intros k Hk. apply not_elem_of_cons in Hk as [Hne Hk].
           rewrite Hout; [|done]. by rewrite lookup_delete_ne.
    + left. exists key, m. split; [|done].
      apply bind_inl. unfold delitem. by rewrite E.
Qed.

End Plumbing.

(** ** [update] *)

Section Update.
Context {F : Type} `{Float F}.

(** After the four [del]s have run, the read of ['grad_weights'] (or an
    earlier read) raises [KeyError]. *)
Lemma update_reads_after_delete (eta : F) (m : model F) :
  m !! "grad_weights" = None →
  ∃ key, (vw <- getitem "weights" ;;
          vb <- getitem "biases" ;;
          vdw <- getitem "grad_weights" ;;
          vdb <- getitem "grad_biases" ;;
          ws <- lift (as_list vw) ;;
          bs <- lift (as_list vb) ;;
          dws <- lift (as_list vdw) ;;
          dbs <- lift (as_list vdb) ;;
          r <- lift (update_loop eta (zip (zip (zip ws bs) dws) dbs) [] []) ;;
          setitem "weights" (VList r.1) ;;
          setitem "biases" (VList r.2)) m = (inl (KeyError key), m)
         ∧ (is_Some (m !! "weights") → is_Some (m !! "biases") → key = "grad_weights").
Proof.
  intros Hgw.
  destruct (m !! "weights") as [vw|] eqn:Ew.
  2:{ exists "weights". split.
      - apply bind_inl. by apply getitem_None.
      - intros [? ?]; done. }
  rewrite (bind_inr _ _ _ _ _ (getitem_Some _ _ _ Ew)).
  destruct (m !! "biases") as [vb|] eqn:Eb.
  2:{ exists "biases". split.
      - apply bind_inl. by apply getitem_None.
      - intros _ [? ?]; done. }
  rewrite (bind_inr _ _ _ _ _ (getitem_Some _ _ _ Eb)).
  exists "grad_weights". split; [|done].
  apply bind_inl. by apply getitem_None.
Qed.

(** [update] on a model that holds the four transient entries. *)
Lemma update_deletes_then_raises_aux (eta : F) (m : model F) :
  is_Some (m !! "activations") →
  is_Some (m !! "w_inputs") →
  is_Some (m !! "grad_weights") →
  is_Some (m !! "grad_biases") →
  ∃ key m',
    update eta m = (inl (KeyError key), m')
    ∧ (is_Some (m !! "weights") → is_Some (m !! "biases") → key = "grad_weights")
    ∧ m' !! "weights" = m !! "weights"
    ∧ m' !! "biases" = m !! "biases".
Proof.
  intros [va Ha] [vz Hz] [vgw Hgw] [vgb Hgb]. unfold update.
  rewrite (bind_inr _ _ _ _ _ (del_keys_transients m _ _ _ _ Ha Hz Hgw Hgb)).
  cbv beta.
  set (m' := delete "grad_biases" _).
  destruct (update_reads_after_delete eta m') as (key & E' & Hkey).
  { subst m'. by rewrite lookup_delete_ne, lookup_delete_eq. }
  assert (Hw : m' !! "weights" = m !! "weights").
  { subst m'. by rewrite !lookup_delete_ne. }
  assert (Hb : m' !! "biases" = m !! "biases").
  { subst m'. by rewrite !lookup_delete_ne. }
  exists key, m'. split; [exact E'|]. split; [|done].
  intros Iw Ib. apply Hkey; by rewrite ?Hw, ?Hb.
Qed.

End Update.

Section UpdateClaims.
Context {F : Type} `{Float F}.

(** C1 (the code departs from it).  The specification wants [update] to
    return the model with every [W] replaced by [W - eta * dW] and every
    [b] by [b - eta * db].  The code deletes the gradient entries before
    it reads them: for every learning rate and every model, [update]
    raises [KeyError] and returns nothing. *)
Theorem update_never_applies_step (eta : F) (m : model F) :
  ∃ key, (update eta m).1 = inl (KeyError key).
Proof.
  unfold update.
  destruct (del_keys_outcome ["activations"; "w_inputs"; "grad_weights"; "grad_biases"] m)
    as [(k & m' & E & _)|(m' & E & Hin & _)].
  - exists k. by rewrite (bind_inl _ _ _ _ _ E).
  - rewrite (bind_inr _ _ _ _ _ E).
    destruct (update_reads_after_delete eta m') as (key & E' & _).
    { apply Hin. set_solver. }
    exists key. cbv beta. by rewrite E'.
Qed.

(** C2.  On a model that holds the four transient entries, [update]
    deletes all four, then raises [KeyError] while reading (the missing
    key is ['grad_weights'] when the model has weights and biases); the
    dict it leaves behind is the input without the four entries, so its
    weights and biases are the ones it had. *)
Theorem update_deletes_then_raises (eta : F) (m : model F) va vz vgw vgb :
  m !! "activations" = Some va →
  m !! "w_inputs" = Some vz →
  m !! "grad_weights" = Some vgw →
  m !! "grad_biases" = Some vgb →
  ∃ key m',
    update eta m = (inl (KeyError key), m')
    ∧ m' = delete "grad_biases" (delete "grad_weights"
             (delete "w_inputs" (delete "activations" m)))
    ∧ (is_Some (m !! "weights") → is_Some (m !! "biases") → key = "grad_weights")
    ∧ m' !! "weights" = m !! "weights"
    ∧ m' !! "biases" = m !! "biases".
Proof.
  intros Ha Hz Hgw Hgb. unfold update.
  rewrite (bind_inr _ _ _ _ _ (del_keys_transients m _ _ _ _ Ha Hz Hgw Hgb)).
  cbv beta.
  set (m' := delete "grad_biases" _).
  destruct (update_reads_after_delete eta m') as (key & E' & Hkey).
  { subst m'. by rewrite lookup_delete_ne, lookup_delete_eq. }
  exists key, m'. split; [exact E'|]. split; [done|].
  assert (Hw : m' !! "weights" = m !! "weights").
  { subst m'. by rewrite !lookup_delete_ne. }
  assert (Hb : m' !! "biases" = m !! "biases").
  { subst m'. by rewrite !lookup_delete_ne. }
  split; [|done].
  intros Iw Ib. apply Hkey; by rewrite ?Hw, ?Hb.
Qed.

End UpdateClaims.

(** ** Arrays: shapes of results *)

Section ArrayFacts.
Context {F : Type} `{Float F}.

Lemma matmul_ok (A B : ndarray F) :
  ncols A = nrows B →
  ∃ C, matmul A B = inr C ∧ shape C = (nrows A, ncols B).
Proof.
  intros E. unfold matmul. rewrite (proj2 (Nat.eqb_eq _ _) E). by eexists.
Qed.

Lemma matmul_mismatch (A B : ndarray F) :
  ncols A ≠ nrows B → matmul A B = inl (ValueError ShapeMismatch).
Proof.
  intros E. unfold matmul. by rewrite (proj2 (Nat.eqb_neq _ _) E).
Qed.

Lemma broadcast_dim_same d : broadcast_dim d d = Some d.
Proof. unfold broadcast_dim. by rewrite Nat.eqb_refl. Qed.

Lemma broadcast_dim_one d : broadcast_dim d 1 = Some d.
Proof.
  unfold broadcast_dim. by destruct (d =? 1).
Qed.

Lemma zipwith_same_shape f (A B : ndarray F) :
  shape A = shape B →
  ∃ C, zipwith f A B = inr C ∧ shape C = shape A.
Proof.
  unfold shape. intros [= Er Ec]. unfold zipwith.
  rewrite Er, Ec, !broadcast_dim_same. by eexists.
Qed.

(** adding a column to every column of a matrix *)
Lemma zipwith_column f (A B : ndarray F) :
  nrows B = nrows A → ncols B = 1 →
  ∃ C, zipwith f A B = inr C ∧ shape C = shape A.
Proof.
  intros Er Ec. unfold zipwith.
  rewrite Er, Ec, broadcast_dim_same, broadcast_dim_one. by eexists.
Qed.

Lemma shape_g (x : ndarray F) : shape (g x) = shape x.
Proof. done. Qed.

Lemma g_prime_ok (x : ndarray F) :
  ∃ C, g_prime x = inr C ∧ shape C = shape x.
Proof.
  destruct (zipwith_same_shape fmul (g x) (amap (fsub fone) (g x))) as (C & E & HC);
    [done|].
  exists C. by split.
Qed.

Lemma shape_inv (A : ndarray F) r c :
  shape A = (r, c) → nrows A = r ∧ ncols A = c.
Proof. unfold shape. by intros [= -> ->]. Qed.

End ArrayFacts.

(** ** Python list operations *)

Section PyLists.
Context {A : Type}.
Implicit Types l : list A.

Lemma py_index_neg l (k : nat) x :
  0 < k → k ≤ length l → l !! (length l - k) = Some x →
  py_index l (- Z.of_nat k) = inr x.
Proof.
  intros Hk Hle Hx. unfold py_index.
  destruct (- Z.of_nat k <? 0)%Z eqn:E0; [|lia].
  replace (Z.to_nat (- Z.of_nat k + Z.of_nat (length l))) with (length l - k) by lia.
  destruct (0 <=? - Z.of_nat k + Z.of_nat (length l))%Z eqn:E1; [|lia].
  destruct (- Z.of_nat k + Z.of_nat (length l) <? Z.of_nat (length l))%Z eqn:E2; [|lia].
  cbn. by rewrite Hx.
Qed.

Lemma py_index_nat l (i : nat) x :
  l !! i = Some x → py_index l (Z.of_nat i) = inr x.
Proof.
  intros Hx. pose proof (lookup_lt_Some _ _ _ Hx) as Hlt. unfold py_index.
  destruct (Z.of_nat i <? 0)%Z eqn:E0; [lia|].
  destruct (0 <=? Z.of_nat i)%Z eqn:E1; [|lia].
  destruct (Z.of_nat i <? Z.of_nat (length l))%Z eqn:E2; [|lia].
  cbn. by rewrite Nat2Z.id, Hx.
Qed.

(** The elements of a reversed slice, by position. *)
Lemma rev_take_drop_lookup l (lo hi i : nat) :
  hi ≤ length l → lo + i < hi →
  rev (drop lo (take hi l)) !! i = l !! (hi - 1 - i).
Proof.
  intros Hhi Hi. rewrite rev_alt. change (rev_append ?x []) with (reverse x).
  rewrite reverse_lookup; rewrite length_drop, length_take, Nat.min_l by done; [|lia].
  rewrite lookup_drop, lookup_take_lt by lia. f_equal. lia.
Qed.

Lemma rev_lookup_lt l (i : nat) :
  i < length l → rev l !! i = l !! (length l - 1 - i).
Proof.
  intros Hi. rewrite <- (firstn_all l) at 1. rewrite <- (drop_0 (take _ l)).
  apply rev_take_drop_lookup; lia.
Qed.

(** [l[::-1]] *)
Lemma py_slice_rev_all l : py_slice_rev l None None = rev l.
Proof.
  unfold py_slice_rev. cbn.
  replace (Z.to_nat (Z.of_nat (length l) - 1 + 1)) with (length l) by lia.
  by rewrite firstn_all.
Qed.

End PyLists.

(** ** [initialize_model] *)

Section Initialize.
Context {F : Type} `{Float F}.
Context {rng : Type} (gauss : rng → F * rng) (can_alloc : Z → bool).

Local Ltac max_cases r c :=
  destruct (Z.max_spec r 1) as [[? ->]|[? ->]];
  destruct (Z.max_spec c 1) as [[? ->]|[? ->]].

(** The checks of the array constructor on two extents, in closed form. *)
Lemma check_dims_valid (r c : Z) :
  valid_extents r c → ∃ n, check_dims [r; c] itemsize = inr n.
Proof.
  intros Hv. cbn [check_dims]. unfold valid_extents, itemsize, NPY_MAX_INTP in *.
  destruct Hv as (Hr & Hc & Hsz).
  destruct (Z.eqb_spec r 0) as [Hr0|Hr0].
  - destruct (Z.eqb_spec c 0) as [Hc0|Hc0]; [by eexists|].
    destruct (Z.ltb_spec c 0); [lia|].
    destruct (Z.ltb_spec (2 ^ 63 - 1) (8 * c)); [|by eexists].
    revert Hsz. max_cases r c; lia.
  - destruct (Z.ltb_spec r 0); [lia|].
    destruct (Z.ltb_spec (2 ^ 63 - 1) (8 * r)).
    { revert Hsz. max_cases r c; nia. }
    destruct (Z.eqb_spec c 0) as [Hc0|Hc0]; [by eexists|].
    destruct (Z.ltb_spec c 0); [lia|].
    destruct (Z.ltb_spec (2 ^ 63 - 1) (8 * r * c)); [|by eexists].
    revert Hsz. max_cases r c; nia.
Qed.

Lemma check_dims_invalid (r c : Z) :
  ¬ valid_extents r c →
  check_dims [r; c] itemsize = inl (ValueError NegativeDimensions)
  ∨ check_dims [r; c] itemsize = inl (ValueError ArrayTooBig).
Proof.
  intros Hbad. cbn [check_dims]. unfold valid_extents, itemsize, NPY_MAX_INTP in *.
  destruct (Z.eqb_spec r 0) as [Hr0|Hr0].
  - destruct (Z.eqb_spec c 0) as [Hc0|Hc0].
    { exfalso; apply Hbad. max_cases r c; lia. }
    destruct (Z.ltb_spec c 0); [by left|].
    destruct (Z.ltb_spec (2 ^ 63 - 1) (8 * c)); [by right|].
    exfalso; apply Hbad. max_cases r c; lia.
  - destruct (Z.ltb_spec r 0); [by left|].
    destruct (Z.ltb_spec (2 ^ 63 - 1) (8 * r)); [by right|].
    destruct (Z.eqb_spec c 0) as [Hc0|Hc0].
    { exfalso; apply Hbad. max_cases r c; lia. }
    destruct (Z.ltb_spec c 0); [by left|].
    destruct (Z.ltb_spec (2 ^ 63 - 1) (8 * r * c)); [by right|].
    exfalso; apply Hbad. max_cases r c; (split; [lia|]; split; [lia|nia]).
Qed.

Lemma valid_extents_fits (r c : Z) :
  valid_extents r c → fits_intp r && fits_intp c = true.
Proof.
  unfold valid_extents, fits_intp, itemsize, NPY_MAX_INTP, NPY_MIN_INTP.
  intros (Hr & Hc & Hsz). revert Hsz.
  max_cases r c; intros Hsz;
    (apply andb_true_iff; split; apply andb_true_iff; split; apply Z.leb_le; nia).
Qed.

(** Valid extents and a granted block: [randn] returns the array of the next
    [r * c] draws. *)
Lemma randn_ok (r c : Z) (s : rng) :
  valid_extents r c →
  can_alloc (itemsize * r * c)%Z = true →
  randn gauss can_alloc r c s
  = (inr (mkArr (Z.to_nat r) (Z.to_nat c) (draws gauss (Z.to_nat r * Z.to_nat c) s).1),
     (draws gauss (Z.to_nat r * Z.to_nat c) s).2).
Proof.
  intros Hv Hm. unfold randn. rewrite (valid_extents_fits _ _ Hv). cbn [negb].
  destruct (check_dims_valid _ _ Hv) as [n ->]. rewrite Hm.
  by destruct (draws gauss (Z.to_nat r * Z.to_nat c) s).
Qed.

(** Valid extents and a refused block *)
Lemma randn_no_memory (r c : Z) (s : rng) :
  valid_extents r c →
  can_alloc (itemsize * r * c)%Z = false →
  randn gauss can_alloc r c s = (inl MemoryError, s).
Proof.
  intros Hv Hm. unfold randn. rewrite (valid_extents_fits _ _ Hv). cbn [negb].
  destruct (check_dims_valid _ _ Hv) as [n ->]. by rewrite Hm.
Qed.

(** Extents that are not valid: one of NumPy's three [ValueError]s, before
    any draw. *)
Lemma randn_invalid (r c : Z) (s : rng) :
  ¬ valid_extents r c →
  ∃ why, randn gauss can_alloc r c s = (inl (ValueError why), s) ∧ why ≠ ShapeMismatch.
Proof.
  intros Hbad. unfold randn.
  destruct (fits_intp r && fits_intp c); cbn [negb].
  - destruct (check_dims_invalid _ _ Hbad) as [-> | ->]; by eexists.
  - by eexists.
Qed.

Lemma valid_extents_dec (r c : Z) : {valid_extents r c} + {¬ valid_extents r c}.
Proof.
  unfold valid_extents.
  destruct (Z_le_dec 0 r); [|right; tauto].
  destruct (Z_le_dec 0 c); [|right; tauto].
  destruct (Z_le_dec (itemsize * Z.max r 1 * Z.max c 1) NPY_MAX_INTP); [|right; tauto].
  by left.
Qed.

(** a column of as many rows is valid too *)
Lemma valid_extents_column (r c : Z) : valid_extents r c → valid_extents r 1.
Proof.
  unfold valid_extents, itemsize, NPY_MAX_INTP. intros (Hr & Hc & Hsz).
  split; [done|]. split; [lia|]. revert Hsz.
  rewrite (Z.max_l 1 1) by lia. max_cases r c; nia.
Qed.

Lemma py_index_dims (dimensions : list Z) (i : nat) :
  i < length dimensions →
  py_index dimensions (Z.of_nat i) = inr (nth i dimensions 0%Z).
Proof.
  intros Hi. apply py_index_nat.
  destruct (lookup_lt_is_Some_2 dimensions i Hi) as [d Hd].
  rewrite Hd. f_equal. by rewrite (nth_lookup_Some _ _ _ _ Hd).
Qed.

(** What the loop of [initialize_model] does from layer [j] on, for [k]
    more layers: it stops at the first layer that cannot be built, and
    otherwise appends [k] arrays of the expected shapes, filled with the
    draws in order, to each list. *)
Lemma init_loop_outcome (dimensions : list Z) (k : nat) :
  ∀ (j : nat) (weights biases : list (ndarray F)) (s : rng),
    (0 < k → j + k < length dimensions) →
    (∃ e s' i, init_loop gauss can_alloc dimensions (map Z.of_nat (seq j k)) weights biases s
               = (inl e, s')
               ∧ j ≤ i < j + k
               ∧ (∀ i', j ≤ i' < i → layer_fits can_alloc dimensions i')
               ∧ fails_at can_alloc dimensions i e)
    ∨ (∃ ws bs s', init_loop gauss can_alloc dimensions (map Z.of_nat (seq j k)) weights biases s
                   = (inr (weights ++ ws, biases ++ bs), s')
                   ∧ length ws = k ∧ length bs = k
                   ∧ (∀ i, j ≤ i < j + k → layer_fits can_alloc dimensions i)
                   ∧ ∀ i, i < k →
                       ∃ W b, ws !! i = Some W ∧ bs !! i = Some b
                              ∧ shape W = (dim_at dimensions (S (j + i)), dim_at dimensions (j + i))
                              ∧ shape b = (dim_at dimensions (S (j + i)), 1)).
Proof.
  induction k as [|k IH]; intros j weights biases s Hlen.
  - right. exists [], [], s. cbn. rewrite !app_nil_r.
    split; [done|]. split; [done|]. split; [done|]. split; intros i Hi; lia.
  - cbn [seq map init_loop].
    assert (Hj : j < length dimensions) by lia.
    assert (HSj : S j < length dimensions) by lia.
    replace (Z.of_nat j + 1)%Z with (Z.of_nat (S j)) by lia.
    rewrite (bind_inr _ _ s _ s (f_equal (λ r, (r, s)) (py_index_dims dimensions (S j) HSj))).
    rewrite (bind_inr _ _ s _ s (f_equal (λ r, (r, s)) (py_index_dims dimensions j Hj))).
    set (d1 := nth (S j) dimensions 0%Z). set (d0 := nth j dimensions 0%Z).
    destruct (valid_extents_dec d1 d0) as [Hv|Hbad]; cycle 1.
    { destruct (randn_invalid d1 d0 s Hbad) as (why & E & Hwhy).
      left. exists (ValueError why), s, j. split; [by apply bind_inl|].
      split; [lia|]. split; [intros i' Hi'; lia|].
      right. by exists why. }
    destruct (can_alloc (itemsize * d1 * d0)%Z) eqn:HmW; cycle 1.
    { left. exists MemoryError, s, j. split; [by apply bind_inl, randn_no_memory|].
      split; [lia|]. split; [intros i' Hi'; lia|].
      left. split; [done|]. split; [done|].
      intros (_ & Hg & _). fold d1 d0 in Hg. congruence. }
    rewrite (bind_inr _ _ _ _ _ (randn_ok d1 d0 s Hv HmW)).
    set (s1 := (draws gauss _ s).2). set (W := mkArr _ _ _).
    rewrite (bind_inr _ _ s1 _ s1 (f_equal (λ r, (r, s1)) (py_index_dims dimensions (S j) HSj))).
    fold d1.
    destruct (can_alloc (itemsize * d1)%Z) eqn:Hmb; cycle 1.
    { left. exists MemoryError, s1, j. split.
      - apply bind_inl, randn_no_memory; [by eapply valid_extents_column|].
        by rewrite Z.mul_1_r.
      - split; [lia|]. split; [intros i' Hi'; lia|].
        left. split; [done|]. split; [done|].
        intros (_ & _ & Hg). fold d1 in Hg. congruence. }
    assert (Hmb1 : can_alloc (itemsize * d1 * 1)%Z = true) by (by rewrite Z.mul_1_r).
    rewrite (bind_inr _ _ _ _ _
               (randn_ok d1 1 s1 (valid_extents_column _ _ Hv) Hmb1)).
    set (s2 := (draws gauss _ s1).2). set (b := mkArr _ _ _).
    assert (Hfit : layer_fits can_alloc dimensions j) by done.
    destruct (IH (S j) (weights ++ [W]) (biases ++ [b]) s2 ltac:(lia))
      as [(e & s' & i & E & Hi & Hbefore & Hfail)
         |(ws & bs & s' & E & Lw & Lb & Hfits & Hsh)].
    + left. exists e, s', i. split; [exact E|]. split; [lia|]. split; [|done].
      intros i' Hi'. destruct (decide (i' = j)) as [->|Hne]; [done|].
      apply Hbefore. lia.
    + right. exists (W :: ws), (b :: bs), s'.
      rewrite E, <- !app_assoc. cbn [app length].
      split; [done|]. split; [by rewrite Lw|]. split; [by rewrite Lb|]. split.
      * intros i Hi.
        destruct (decide (i = j)) as [->|Hne]; [done|].
        apply Hfits; lia.
      * intros [|i] Hi.
        -- exists W, b. rewrite Nat.add_0_r. by repeat split.
        -- destruct (Hsh i ltac:(lia)) as (W' & b' & HW' & Hb' & SW' & Sb').
           exists W', b'. cbn [lookup list_lookup].
           replace (j + S i) with (S j + i) by lia. by repeat split.
Qed.

(** [initialize_model] either stops at the first layer that cannot be
    built, which needs at least two entries, or returns a dict with exactly
    the three permanent entries. *)
Lemma initialize_model_outcome (dimensions : list Z) (s : rng) :
  (∃ e s' i, initialize_model gauss can_alloc dimensions s = (inl e, s')
             ∧ S i < length dimensions
             ∧ (∀ i', i' < i → layer_fits can_alloc dimensions i')
             ∧ fails_at can_alloc dimensions i e)
  ∨ (∃ ws bs s',
       initialize_model gauss can_alloc dimensions s
       = (inr (<["nlayers" := VInt (Z.of_nat (length dimensions) - 1)]>
               (<["biases" := VList bs]> (<["weights" := VList ws]> ∅))), s')
       ∧ params_shaped dimensions ws bs
       ∧ (∀ i, S i < length dimensions → layer_fits can_alloc dimensions i)).
Proof.
  unfold initialize_model, py_range.
  set (k := Z.to_nat (Z.of_nat (length dimensions) - 1)).
  assert (Hk : k = length dimensions - 1) by lia.
  destruct (init_loop_outcome dimensions k 0 [] [] s ltac:(lia))
    as [(e & s' & i & E & Hi & Hbefore & Hfail)
       |(ws & bs & s' & E & Lw & Lb & Hfits & Hsh)].
  - left. exists e, s', i. split; [by rewrite (bind_inl _ _ _ _ _ E)|].
    split; [lia|]. split; [|done]. intros i' Hi'. apply Hbefore. lia.
  - right. exists ws, bs, s'. rewrite (bind_inr _ _ _ _ _ E). cbn.
    split; [done|]. split.
    + split; [lia|]. split; [lia|]. intros i Hi. apply Hsh. lia.
    + intros i Hi. apply Hfits. lia.
Qed.

(** The shape of a successful result. *)
Lemma initialize_model_inr (dimensions : list Z) (s s' : rng) (m : model F) :
  initialize_model gauss can_alloc dimensions s = (inr m, s') →
  ∃ ws bs,
    m = <["nlayers" := VInt (Z.of_nat (length dimensions) - 1)]>
          (<["biases" := VList bs]> (<["weights" := VList ws]> ∅))
    ∧ params_shaped dimensions ws bs
    ∧ (2 ≤ length dimensions → ∀ i, i < length dimensions → (0 ≤ nth i dimensions 0)%Z).
Proof.
  intros E.
  destruct (initialize_model_outcome dimensions s)
    as [(e & s1 & i & E1 & _)|(ws & bs & s1 & E1 & Hsh & Hfits)]; rewrite E1 in E.
  - done.
  - injection E as <- <-. exists ws, bs. split; [done|]. split; [done|].
    intros Hlen i Hi.
    destruct (decide (i = 0)) as [->|Hne].
    + by destruct (Hfits 0 ltac:(lia)) as ((_ & H0 & _) & _).
    + destruct (Hfits (i - 1) ltac:(lia)) as ((H1 & _) & _).
      by replace (S (i - 1)) with i in H1 by lia.
Qed.

End Initialize.

Section InitializeClaims.
Context {F : Type} `{Float F}.
Context {rng : Type} (gauss : rng → F * rng) (can_alloc : Z → bool).


(** C6, as the code has it.  [initialize_model] validates nothing itself.
    It returns a model exactly when every layer can be built: the extents
    of each weight matrix are valid for NumPy and the allocator grants each
    weight matrix and bias column; lists of fewer than two entries and
    zero widths are therefore accepted.  When it raises, the exception is
    NumPy's own, at some layer: [MemoryError] for a refused block, or, only
    where the extents are not valid, one of the [ValueError]s of the array
    constructor.  With memory for every block, it raises [ValueError]
    exactly when the extents of some layer are not valid. *)
Theorem initialize_model_fails_iff (dimensions : list Z) (s : rng) :
  ((∃ m s', initialize_model gauss can_alloc dimensions s = (inr m, s'))
   ↔ ∀ l, S l < length dimensions → layer_fits can_alloc dimensions l)
  ∧ (∀ e s', initialize_model gauss can_alloc dimensions s = (inl e, s') →
       ∃ l, S l < length dimensions ∧ fails_at can_alloc dimensions l e)
  ∧ ((∀ nbytes, can_alloc nbytes = true) →
     ((∃ l, S l < length dimensions
            ∧ ¬ valid_extents (nth (S l) dimensions 0%Z) (nth l dimensions 0%Z))
      ↔ ∃ why s', initialize_model gauss can_alloc dimensions s
                  = (inl (ValueError why), s'))).
Proof.
  destruct (initialize_model_outcome gauss can_alloc dimensions s)
    as [(e1 & s1 & i & E1 & Hi & Hbefore & Hfail)|(ws & bs & s1 & E1 & _ & Hfits)].
  - assert (Hnofit : ¬ layer_fits can_alloc dimensions i).
    { destruct Hfail as [(_ & _ & Hn)|(why & _ & _ & Hn)]; [done|].
      intros (Hv & _). done. }
    split; [|split].
    + split.
      * intros (m & s' & E). by rewrite E1 in E.
      * intros Hall. destruct (Hnofit (Hall i Hi)).
    + intros e s' E. rewrite E1 in E. injection E as <- <-. by exists i.
    + intros Hmem. split.
      * intros _. destruct Hfail as [(_ & Hv & Hn)|(why & -> & _ & _)].
        -- destruct Hn. split; [done|]. by split; apply Hmem.
        -- by exists why, s1.
      * intros (why & s' & E). rewrite E1 in E. injection E as -> <-.
        destruct Hfail as [(Hm & _)|(why' & _ & _ & Hn)]; [done|]. by exists i.
  - split; [|split].
    + split; [done|]. intros _. by eexists _, _.
    + intros e s' E. by rewrite E1 in E.
    + intros _. split.
      * intros (l & Hl & Hn). by destruct (Hfits l Hl) as (Hv & _).
      * intros (why & s' & E). by rewrite E1 in E.
Qed.


End InitializeClaims.

(** C6, refuted as stated: a single width and a zero width are both
    accepted. *)
Lemma initialize_model_accepts_short_and_zero :
  initialize_model ex_gauss ex_can_alloc [5%Z] 0 = (inr ex_model_5, 0)
  ∧ initialize_model ex_gauss ex_can_alloc [3%Z; 0%Z] 0 = (inr ex_model_3_0, 0).
Proof. split; reflexivity. Qed.


(** within the extents NumPy allows, a block the allocator refuses *)
Example initialize_model_out_of_memory_ex :
  initialize_model ex_gauss ex_can_alloc [2 ^ 29; 2 ^ 29]%Z 0 = (inl MemoryError, 0).
Proof. reflexivity. Qed.


Example initialize_model_2_1 :
  initialize_model ex_gauss ex_can_alloc [2%Z; 1%Z] 0 = (inr ex_model_2_1, 3).
Proof. reflexivity. Qed.

(** ** [forward] *)

Section Forward.
Context {F : Type} `{Float F}.
Variables (dimensions : list Z) (ws bs : list (ndarray F)).
Variables (x : ndarray F) (n : nat).
Hypothesis Hparams : params_shaped dimensions ws bs.
Hypothesis Hx : shape x = (dim_at dimensions 0, n).

Local Abbreviation forward_inv := (forward_inv ws bs dimensions x n).

Lemma forward_inv_start : forward_inv 0 x [x] [].
Proof.
  repeat split; try done.
  - intros [|i] A; [|done]. cbn. intros [= <-]. by rewrite Hx.
  - intros l W b Hl. lia.
Qed.

Lemma forward_inv_step j a activations zs W b p z :
  forward_inv j a activations zs →
  ws !! j = Some W → bs !! j = Some b →
  matmul W a = inr p → add p b = inr z →
  shape z = (dim_at dimensions (S j), n) →
  forward_inv (S j) (g z) (activations ++ [g z]) (zs ++ [z]).
Proof.
  intros (La & Lz & H0 & Hj & Sa & Sz & Hrec) HW Hb Hp Hz Shz.
  split; [rewrite length_app; cbn; lia|].
  split; [rewrite length_app; cbn; lia|].
  split; [by rewrite lookup_app_l by lia|].
  split; [by rewrite lookup_app_r, La, Nat.sub_diag by lia|].
  split; [|split].
  - intros i A Hi. apply lookup_app_Some in Hi as [Hi|[Hge Hi]]; [by apply Sa|].
    rewrite La in Hge, Hi. destruct (i - S j) as [|?] eqn:E; [|done].
    cbn in Hi. injection Hi as <-. rewrite shape_g, Shz.
    f_equal. f_equal. lia.
  - intros i A Hi. apply lookup_app_Some in Hi as [Hi|[Hge Hi]]; [by apply Sz|].
    rewrite Lz in Hge, Hi. destruct (i - j) as [|?] eqn:E; [|done].
    cbn in Hi. injection Hi as <-. rewrite Shz. f_equal. f_equal. lia.
  - intros l W' b' Hl HW' Hb'.
    destruct (decide (l = j)) as [->|Hne].
    + rewrite HW in HW'. rewrite Hb in Hb'. injection HW' as <-. injection Hb' as <-.
      exists a, p, z. rewrite !lookup_app_l by lia.
      split; [done|]. split; [done|]. split; [done|].
      rewrite !lookup_app_r by lia. rewrite Lz, La, !Nat.sub_diag. done.
    + destruct (Hrec l W' b' ltac:(lia) HW' Hb') as (a0 & p0 & z0 & ? & ? & ? & ? & ?).
      exists a0, p0, z0. rewrite !lookup_app_l by lia. done.
Qed.

Lemma forward_loop_inv (k : nat) :
  ∀ j a activations zs,
    j + k = length ws →
    forward_inv j a activations zs →
    ∃ a' activations' zs',
      forward_loop (drop j (zip ws bs)) a activations zs = inr (a', activations', zs')
      ∧ forward_inv (length ws) a' activations' zs'.
Proof.
  destruct Hparams as (Lw & Lb & Hsh).
  induction k as [|k IH]; intros j a activations zs Hjk Hinv.
  - rewrite drop_ge by (rewrite length_zip; lia). cbn.
    exists a, activations, zs. split; [done|].
    by replace (length ws) with j by lia.
  - destruct (Hsh j ltac:(lia)) as (W & b & HW & Hb & SW & Sb).
    assert (Hzip : zip ws bs !! j = Some (W, b)).
    { apply lookup_zip_with_Some. by exists W, b. }
    rewrite (drop_S _ _ _ Hzip). cbn [forward_loop].
    pose proof Hinv as (La & Lz & H0 & Hj & Sa & Sz & Hrec).
    pose proof (Sa j a Hj) as Sha. rewrite Nat.add_0_l in Sha.
    apply shape_inv in SW as [Wr Wc]. apply shape_inv in Sb as [br bc].
    apply shape_inv in Sha as [ar ac].
    destruct (matmul_ok W a ltac:(congruence)) as (p & Ep & Sp).
    rewrite Ep. cbn [rbind].
    apply shape_inv in Sp as [pr pc].
    destruct (zipwith_column fadd p b ltac:(congruence) bc) as (z & Ez & Shz).
    fold (add p b) in Ez. rewrite Ez. cbn [rbind].
    apply (IH (S j)); [lia|].
    eapply forward_inv_step; try done.
    rewrite Shz. unfold shape. congruence.
Qed.

(** With at least one layer, the first matrix product checks the rows of
    the input. *)
Lemma forward_first_product (m : model F) (x' : ndarray F) :
  2 ≤ length dimensions →
  m !! "weights" = Some (VList ws) →
  m !! "biases" = Some (VList bs) →
  nrows x' ≠ dim_at dimensions 0 →
  forward x' m = (inl (ValueError ShapeMismatch), m).
Proof.
  intros Hlen Hw Hb Hrows.
  destruct Hparams as (Lw & Lb & Hlayers).
  destruct (Hlayers 0 ltac:(lia)) as (W & b & HW & Hbl & SW & _).
  destruct ws as [|W' ws']; [done|]. destruct bs as [|b' bs']; [done|].
  cbn in HW, Hbl. injection HW as ->. injection Hbl as ->.
  apply shape_inv in SW as [_ Wc].
  unfold forward.
  rewrite (bind_inr _ _ _ _ _ (getitem_Some _ _ _ Hw)).
  rewrite (bind_inr _ _ _ _ _ (getitem_Some _ _ _ Hb)).
  unfold lift at 1 2 3. unfold bind at 1 2 3. cbn [as_list zip_with forward_loop].
  rewrite matmul_mismatch; [done|]. by rewrite Wc.
Qed.

(** [forward] on a model holding [ws] and [bs]. *)
Lemma forward_shaped (m : model F) :
  m !! "weights" = Some (VList ws) →
  m !! "biases" = Some (VList bs) →
  ∃ out activations zs,
    forward x m = (inr out, <["w_inputs" := VList zs]>
                             (<["activations" := VList activations]> m))
    ∧ forward_inv (length ws) out activations zs.
Proof.
  intros Hw Hb.
  destruct (forward_loop_inv (length ws) 0 x [x] [] ltac:(lia) forward_inv_start)
    as (out & activations & zs & E & Hinv).
  rewrite drop_0 in E.
  exists out, activations, zs. split; [|done].
  unfold forward.
  rewrite (bind_inr _ _ _ _ _ (getitem_Some _ _ _ Hw)).
  rewrite (bind_inr _ _ _ _ _ (getitem_Some _ _ _ Hb)).
  unfold lift at 1 2 3. unfold bind at 1 2 3. cbn [as_list].
  rewrite E. done.
Qed.

End Forward.

Section ForwardClaims.
Context {F : Type} `{Float F}.
Context {rng : Type} (gauss : rng → F * rng) (can_alloc : Z → bool).

Lemma initialized_lookups (L : Z) (ws bs : list (ndarray F)) :
  let m : model F := <["nlayers" := VInt L]>
                       (<["biases" := VList bs]> (<["weights" := VList ws]> ∅)) in
  m !! "weights" = Some (VList ws)
  ∧ m !! "biases" = Some (VList bs)
  ∧ m !! "nlayers" = Some (VInt L)
  ∧ ∀ k, k ≠ "weights" → k ≠ "biases" → k ≠ "nlayers" → m !! k = None.
Proof.
  cbv zeta. split; [|split; [|split]].
  - rewrite !lookup_insert_ne by done. apply lookup_insert_eq.
  - rewrite lookup_insert_ne by done. apply lookup_insert_eq.
  - apply lookup_insert_eq.
  - intros k ? ? ?. by rewrite !lookup_insert_ne.
Qed.

(** C5.  On a model produced by [initialize_model] and an input whose row
    count is [dimensions[0]], [forward] records [a_0 = x] and, for each
    layer [l] from 1 to L, [z_l = W_l @ a_(l-1) + b_l] and [a_l = g(z_l)];
    the model then holds L+1 activations and L weighted inputs, and the
    returned array is [a_L], of shape [(dimensions[L], batch size)]. *)
Theorem forward_computes_layers (dimensions : list Z) (s s' : rng)
    (m : model F) (x : ndarray F) :
  initialize_model gauss can_alloc dimensions s = (inr m, s') →
  1 ≤ length dimensions →
  Z.of_nat (nrows x) = nth 0 dimensions 0%Z →
  ∃ ws bs out activations zs,
    m !! "weights" = Some (VList ws)
    ∧ m !! "biases" = Some (VList bs)
    ∧ forward x m = (inr out, <["w_inputs" := VList zs]>
                               (<["activations" := VList activations]> m))
    ∧ length ws = length dimensions - 1
    ∧ length activations = S (length dimensions - 1)
    ∧ length zs = length dimensions - 1
    ∧ activations !! 0 = Some x
    ∧ (∀ l, 1 ≤ l ≤ length dimensions - 1 →
         ∃ W b a p z,
           ws !! (l - 1) = Some W ∧ bs !! (l - 1) = Some b
           ∧ activations !! (l - 1) = Some a
           ∧ matmul W a = inr p ∧ add p b = inr z
           ∧ zs !! (l - 1) = Some z
           ∧ activations !! l = Some (g z))
    ∧ activations !! (length dimensions - 1) = Some out
    ∧ shape out = (dim_at dimensions (length dimensions - 1), ncols x).
Proof.
  intros Einit Hlen Hrows.
  destruct (initialize_model_inr gauss can_alloc _ _ _ _ Einit) as (ws & bs & -> & Hsh & _).
  destruct (initialized_lookups (Z.of_nat (length dimensions) - 1) ws bs)
    as (Hw & Hb & _).
  assert (Hx : shape x = (dim_at dimensions 0, ncols x)).
  { unfold shape, dim_at. f_equal. lia. }
  destruct (forward_shaped dimensions ws bs x (ncols x) Hsh Hx _ Hw Hb)
    as (out & activations & zs & E & La & Lz & H0 & HL & Sa & Sz & Hrec).
  pose proof Hsh as (Lw & Lb & Hlayers).
  exists ws, bs, out, activations, zs.
  rewrite Lw in *.
  repeat (split; [done|]). split; [|split; [done|by apply (Sa _ _ HL)]].
  intros l Hl.
  destruct (Hlayers (l - 1) ltac:(lia)) as (W & b & HW & Hbl & _).
  destruct (Hrec (l - 1) W b ltac:(lia) HW Hbl) as (a & p & z & Ha & Hp & Hz & Hzl & Hal).
  replace (S (l - 1)) with l in Hal by lia.
  by exists W, b, a, p, z.
Qed.

(** C9, as the code has it.  [forward] checks nothing itself: the check is
    the one the first matrix product makes.  On a model initialized from at
    least two widths, an input whose row count is not [dimensions[0]] makes
    [forward] raise the shape-mismatch [ValueError] of that product; nothing
    is returned and the model is left as it was.  On a model initialized
    from fewer than two widths there is no product: [forward] returns such
    an input itself and records it as the only activation. *)
Theorem forward_rejects_wrong_rows (dimensions : list Z) (s s' : rng)
    (m : model F) (x : ndarray F) :
  initialize_model gauss can_alloc dimensions s = (inr m, s') →
  Z.of_nat (nrows x) ≠ nth 0 dimensions 0%Z →
  (2 ≤ length dimensions → forward x m = (inl (ValueError ShapeMismatch), m))
  ∧ (length dimensions < 2 →
     forward x m = (inr x, <["w_inputs" := VList []]>
                             (<["activations" := VList [x]]> m))).
Proof.
  intros Einit Hrows.
  destruct (initialize_model_inr gauss can_alloc _ _ _ _ Einit) as (ws & bs & -> & Hsh & Hpos).
  destruct (initialized_lookups (Z.of_nat (length dimensions) - 1) ws bs)
    as (Hw & Hb & _).
  split.
  - intros Hlen. pose proof (Hpos Hlen 0 ltac:(lia)) as Hd0.
    apply (forward_first_product dimensions ws bs Hsh); try done.
    unfold dim_at. lia.
  - intros Hlen. destruct Hsh as (Lw & _).
    destruct ws as [|W ws]; [|cbn in Lw; lia].
    unfold forward, bind, getitem. rewrite Hw, Hb. reflexivity.
Qed.

End ForwardClaims.

Lemma forward_computes_layers_witness :
  initialize_model ex_gauss ex_can_alloc [2%Z; 1%Z] 0 = (inr ex_model_2_1, 3)
  ∧ 1 ≤ length [2%Z; 1%Z]
  ∧ Z.of_nat (nrows ex_x) = nth 0 [2%Z; 1%Z] 0%Z
  ∧ ∃ ws bs out activations zs,
      ex_model_2_1 !! "weights" = Some (VList ws)
      ∧ ex_model_2_1 !! "biases" = Some (VList bs)
      ∧ forward ex_x ex_model_2_1
        = (inr out, <["w_inputs" := VList zs]>
                      (<["activations" := VList activations]> ex_model_2_1))
      ∧ length ws = length [2%Z; 1%Z] - 1
      ∧ length activations = S (length [2%Z; 1%Z] - 1)
      ∧ length zs = length [2%Z; 1%Z] - 1
      ∧ activations !! 0 = Some ex_x
      ∧ (∀ l, 1 ≤ l ≤ length [2%Z; 1%Z] - 1 →
           ∃ W b a p z,
             ws !! (l - 1) = Some W ∧ bs !! (l - 1) = Some b
             ∧ activations !! (l - 1) = Some a
             ∧ matmul W a = inr p ∧ add p b = inr z
             ∧ zs !! (l - 1) = Some z
             ∧ activations !! l = Some (g z))
      ∧ activations !! (length [2%Z; 1%Z] - 1) = Some out
      ∧ shape out = (dim_at [2%Z; 1%Z] (length [2%Z; 1%Z] - 1), ncols ex_x).
Proof.
  assert (H1 : initialize_model ex_gauss ex_can_alloc [2%Z; 1%Z] 0 = (inr ex_model_2_1, 3))
    by reflexivity.
  assert (H2 : 1 ≤ length [2%Z; 1%Z]) by (simpl; lia).
  assert (H3 : Z.of_nat (nrows ex_x) = nth 0 [2%Z; 1%Z] 0%Z) by reflexivity.
  split; [exact H1|]. split; [exact H2|]. split; [exact H3|].
  exact (forward_computes_layers ex_gauss ex_can_alloc [2%Z; 1%Z] 0 3 ex_model_2_1 ex_x H1 H2 H3).
Defined.

(** C9, refuted as stated: [initialize_model([5])] is an initialized model,
    and [forward] returns an input of three rows instead of raising. *)
Lemma forward_accepts_wrong_rows_without_layers :
  initialize_model ex_gauss ex_can_alloc [5%Z] 0 = (inr ex_model_5, 0)
  ∧ Z.of_nat (nrows ex_x_bad) ≠ nth 0 [5%Z] 0%Z
  ∧ forward ex_x_bad ex_model_5
    = (inr ex_x_bad, <["w_inputs" := VList []]>
                       (<["activations" := VList [ex_x_bad]]> ex_model_5)).
Proof.
  split; [reflexivity|]. split; [simpl; lia|reflexivity].
Qed.

Lemma forward_rejects_wrong_rows_witness :
  initialize_model ex_gauss ex_can_alloc [2%Z; 1%Z] 0 = (inr ex_model_2_1, 3)
  ∧ 2 ≤ length [2%Z; 1%Z]
  ∧ Z.of_nat (nrows ex_x_bad) ≠ nth 0 [2%Z; 1%Z] 0%Z
  ∧ forward ex_x_bad ex_model_2_1 = (inl (ValueError ShapeMismatch), ex_model_2_1).
Proof.
  assert (H1 : initialize_model ex_gauss ex_can_alloc [2%Z; 1%Z] 0 = (inr ex_model_2_1, 3))
    by reflexivity.
  assert (H2 : 2 ≤ length [2%Z; 1%Z]) by (simpl; lia).
  assert (H3 : Z.of_nat (nrows ex_x_bad) ≠ nth 0 [2%Z; 1%Z] 0%Z) by (simpl; lia).
  split; [exact H1|]. split; [exact H2|]. split; [exact H3|].
  exact (proj1 (forward_rejects_wrong_rows ex_gauss ex_can_alloc [2%Z; 1%Z] 0 3
                  ex_model_2_1 ex_x_bad H1 H3) H2).
Defined.

(** ** [backward] *)

Section BackwardSlices.
Context {A : Type}.
Implicit Types l : list A.

(** [l[-1:0:-1]] *)
Lemma py_slice_rev_last_to_1 l :
  py_slice_rev l (Some (-1)%Z) (Some 0%Z) = rev (drop 1 l).
Proof.
  destruct l as [|a l]; [done|].
  unfold py_slice_rev, adjust_neg_step.
  set (len := Z.of_nat (length (a :: l))).
  assert (Hlen : (1 ≤ len)%Z) by (subst len; cbn [length]; lia).
  replace (-1 <? 0)%Z with true by done.
  replace (0 <? 0)%Z with false by done.
  destruct (-1 + len <? 0)%Z eqn:E1; [lia|].
  destruct (len <=? 0)%Z eqn:E2; [lia|].
  replace (Z.to_nat (0 + 1)) with 1 by lia.
  replace (Z.to_nat (-1 + len + 1)) with (length (a :: l)) by lia.
  by rewrite firstn_all.
Qed.

(** [l[-k::-1]] for [k >= 1] *)
Lemma py_slice_rev_from_neg l (k : nat) :
  1 ≤ k →
  py_slice_rev l (Some (- Z.of_nat k)%Z) None = rev (take (length l - (k - 1)) l).
Proof.
  intros Hk. unfold py_slice_rev, adjust_neg_step.
  destruct (- Z.of_nat k <? 0)%Z eqn:E0; [|lia].
  replace (Z.to_nat (-1 + 1)) with 0 by lia. rewrite drop_0.
  destruct (- Z.of_nat k + Z.of_nat (length l) <? 0)%Z eqn:E1.
  - replace (Z.to_nat (-1 + 1)) with 0 by lia.
    by replace (length l - (k - 1)) with 0 by lia.
  - f_equal. f_equal. lia.
Qed.

(** [l[-2::-1]] and [l[-3::-1]] *)
Lemma py_slice_rev_from_2 l :
  py_slice_rev l (Some (-2)%Z) None = rev (take (length l - 1) l).
Proof. apply (py_slice_rev_from_neg l 2). lia. Qed.

Lemma py_slice_rev_from_3 l :
  py_slice_rev l (Some (-3)%Z) None = rev (take (length l - 2) l).
Proof. apply (py_slice_rev_from_neg l 3). lia. Qed.

Lemma rev_take_lookup l (hi i : nat) :
  hi ≤ length l → i < hi → rev (take hi l) !! i = l !! (hi - 1 - i).
Proof.
  intros Hhi Hi. rewrite <- (drop_0 (take hi l)).
  by apply rev_take_drop_lookup.
Qed.

Lemma rev_drop1_lookup l (i : nat) :
  S i < length l → rev (drop 1 l) !! i = l !! (length l - 1 - i).
Proof.
  intros Hi. rewrite <- (firstn_all l) at 1.
  apply rev_take_drop_lookup; lia.
Qed.

End BackwardSlices.

Section Backward.
Context {F : Type} `{Float F}.
Variables (dimensions : list Z) (ws bs zs activations : list (ndarray F)).
Variables (y : ndarray F) (n : nat).
Hypothesis Hlayers : 2 ≤ length dimensions.
Hypothesis Hparams : params_shaped dimensions ws bs.
Hypothesis Hlen_a : length activations = S (length ws).
Hypothesis Hlen_z : length zs = length ws.
Hypothesis Hsh_a : cols_shaped dimensions 0 n activations.
Hypothesis Hsh_z : cols_shaped dimensions 1 n zs.
Hypothesis Hy : shape y = (dim_at dimensions (length ws), n).

Local Abbreviation its := (loop_iterates ws zs activations).

Lemma layer_count : 1 ≤ length ws.
Proof. destruct Hparams as (Lw & _). lia. Qed.

Lemma weight_at (i : nat) :
  i < length ws →
  ∃ W, ws !! i = Some W ∧ shape W = (dim_at dimensions (S i), dim_at dimensions i).
Proof.
  destruct Hparams as (Lw & _ & Hsh). intros Hi.
  destruct (Hsh i ltac:(lia)) as (W & b & HW & _ & SW & _). by exists W.
Qed.

Lemma activation_at (i : nat) :
  i ≤ length ws →
  ∃ a, activations !! i = Some a ∧ shape a = (dim_at dimensions i, n).
Proof.
  intros Hi. destruct (lookup_lt_is_Some_2 activations i ltac:(lia)) as [a Ha].
  exists a. split; [done|]. by apply (Hsh_a i a Ha).
Qed.

Lemma weighted_input_at (i : nat) :
  i < length ws →
  ∃ z, zs !! i = Some z ∧ shape z = (dim_at dimensions (S i), n).
Proof.
  intros Hi. destruct (lookup_lt_is_Some_2 zs i ltac:(lia)) as [z Hz].
  exists z. split; [done|]. by apply (Hsh_z i z Hz).
Qed.

(** Iteration [i] of the loop sees [W_(l+1)], [z_l], [a_(l-1)] for
    [l = L - 1 - i]. *)
Lemma loop_iterates_lookup (i : nat) :
  S i < length ws →
  ∃ W z a,
    its !! i = Some (W, z, a)
    ∧ ws !! (length ws - 1 - i) = Some W
    ∧ zs !! (length ws - 2 - i) = Some z
    ∧ activations !! (length ws - 2 - i) = Some a.
Proof.
  intros Hi.
  destruct (weight_at (length ws - 1 - i) ltac:(lia)) as (W & HW & _).
  destruct (weighted_input_at (length ws - 2 - i) ltac:(lia)) as (z & Hz & _).
  destruct (activation_at (length ws - 2 - i) ltac:(lia)) as (a & Ha & _).
  exists W, z, a. split; [|done].
  unfold loop_iterates.
  apply lookup_zip_with_Some. exists (W, z), a. split; [done|]. split; [|].
  - apply lookup_zip_with_Some. exists W, z. split; [done|]. split.
    + rewrite py_slice_rev_last_to_1, rev_drop1_lookup by lia. done.
    + rewrite py_slice_rev_from_2.
      rewrite rev_take_lookup by lia. rewrite <- Hz. f_equal. lia.
  - rewrite py_slice_rev_from_3.
    rewrite rev_take_lookup by lia. rewrite <- Ha. f_equal. lia.
Qed.

Lemma loop_iterates_length : length its = length ws - 1.
Proof.
  unfold loop_iterates. rewrite !length_zip_with.
  rewrite py_slice_rev_last_to_1, py_slice_rev_from_2, py_slice_rev_from_3.
  rewrite !length_rev, length_drop, !length_take. lia.
Qed.

Local Abbreviation ginv := (grads_inv dimensions ws zs activations y n).
Local Abbreviation delta_of := (spec_delta ws zs activations y).

(** the two gradients of one layer, from its error term *)
Lemma layer_gradients (l : nat) (d a : ndarray F) :
  shape d = (dim_at dimensions (S l), n) →
  shape a = (dim_at dimensions l, n) →
  ∃ gb gw,
    matmul d (ones n 1) = inr gb
    ∧ matmul d (transpose a) = inr gw
    ∧ shape gw = (dim_at dimensions (S l), dim_at dimensions l)
    ∧ shape gb = (dim_at dimensions (S l), 1).
Proof.
  intros Sd Sa. apply shape_inv in Sd as [dr dc]. apply shape_inv in Sa as [ar ac].
  destruct (matmul_ok d (ones n 1) ltac:(done)) as (gb & Egb & Sgb).
  destruct (matmul_ok d (transpose a) ltac:(cbn; congruence)) as (gw & Egw & Sgw).
  exists gb, gw. split; [done|]. split; [done|].
  rewrite Sgw, Sgb. cbn. by rewrite dr, ar.
Qed.

Lemma grads_inv_snoc (c : nat) gws gbs d a gw gb :
  ginv c gws gbs →
  delta_of (length ws - c) d →
  activations !! (length ws - 1 - c) = Some a →
  matmul d (ones n 1) = inr gb →
  matmul d (transpose a) = inr gw →
  shape gw = (dim_at dimensions (length ws - c), dim_at dimensions (length ws - 1 - c)) →
  shape gb = (dim_at dimensions (length ws - c), 1) →
  ginv (S c) (gws ++ [gw]) (gbs ++ [gb]).
Proof.
  intros (Lw & Lb & Hk) Hd Ha Egb Egw Sgw Sgb.
  split; [rewrite length_app; cbn; lia|].
  split; [rewrite length_app; cbn; lia|].
  intros k Hlt. destruct (decide (k = c)) as [->|Hne].
  - exists d, a, gw, gb.
    rewrite !lookup_app_r by lia. rewrite Lw, Lb, Nat.sub_diag. done.
  - destruct (Hk k ltac:(lia)) as (d0 & a0 & gw0 & gb0 & ? & ? & ? & ? & ? & ? & ? & ?).
    exists d0, a0, gw0, gb0. rewrite !lookup_app_l by lia. done.
Qed.

Lemma backward_loop_inv (k : nat) :
  ∀ i delta gws gbs,
    i + k = length ws - 1 →
    delta_of (length ws - i) delta →
    shape delta = (dim_at dimensions (length ws - i), n) →
    ginv (S i) gws gbs →
    ∃ gws' gbs',
      backward_loop n (drop i its) delta gws gbs = inr (gws', gbs')
      ∧ ginv (length ws) gws' gbs'.
Proof.
  pose proof layer_count as HL.
  induction k as [|k IH]; intros i delta gws gbs Hik Hd Sd Hinv.
  - rewrite drop_ge by (rewrite loop_iterates_length; lia). cbn.
    exists gws, gbs. split; [done|].
    by replace (length ws) with (S i) by lia.
  - destruct (loop_iterates_lookup i ltac:(lia)) as (W & z & a & Hit & HW & Hz & Ha).
    rewrite (drop_S _ _ _ Hit). cbn [backward_loop].
    set (l := length ws - 1 - i) in *.
    replace (length ws - i) with (S l) in * by lia.
    replace (length ws - 2 - i) with (l - 1) in * by lia.
    destruct (weight_at l ltac:(lia)) as (W' & HW' & SW).
    rewrite HW in HW'. injection HW' as <-.
    destruct (weighted_input_at (l - 1) ltac:(lia)) as (z' & Hz' & Sz).
    rewrite Hz in Hz'. injection Hz' as <-.
    destruct (activation_at (l - 1) ltac:(lia)) as (a' & Ha' & Sa).
    rewrite Ha in Ha'. injection Ha' as <-.
    replace (S (l - 1)) with l in Sz by lia.
    pose proof (shape_inv _ _ _ SW) as [Wr Wc].
    pose proof (shape_inv _ _ _ Sd) as [dr dc].
    destruct (matmul_ok (transpose W) delta ltac:(cbn; congruence)) as (t & Et & St).
    rewrite Et. cbn [rbind].
    destruct (g_prime_ok z) as (gp & Egp & Sgp). rewrite Egp. cbn [rbind].
    assert (Stgp : shape t = shape gp).
    { rewrite St, Sgp, Sz. cbn. by rewrite Wc, dc. }
    destruct (zipwith_same_shape fmul t gp Stgp) as (delta' & Ed & Sd').
    fold (mul t gp) in Ed. rewrite Ed. cbn [rbind].
    assert (Sdl : shape delta' = (dim_at dimensions l, n)).
    { by rewrite Sd', Stgp, Sgp. }
    assert (Hd' : delta_of l delta').
    { eapply (delta_hidden _ _ _ _ l W z delta t gp delta'); try done. lia. }
    assert (Sdl' : shape delta' = (dim_at dimensions (S (l - 1)), n)).
    { by replace (S (l - 1)) with l by lia. }
    destruct (layer_gradients (l - 1) delta' a Sdl' Sa) as (gb & gw & Egb & Egw & Sgw & Sgb).
    replace (S (l - 1)) with l in Sgw, Sgb by lia.
    rewrite Egb, Egw. cbn [rbind].
    apply (IH (S i)).
    + lia.
    + by replace (length ws - S i) with l by lia.
    + by replace (length ws - S i) with l by lia.
    + eapply grads_inv_snoc; try done.
      * by replace (length ws - S i) with l by lia.
      * by replace (length ws - 1 - S i) with (l - 1) by lia.
      * replace (length ws - S i) with l by lia.
        by replace (length ws - 1 - S i) with (l - 1) by lia.
      * by replace (length ws - S i) with l by lia.
Qed.

(** the gradients of the output layer, computed before the loop *)
Lemma output_layer (aL zL a : ndarray F) :
  activations !! length ws = Some aL →
  zs !! (length ws - 1) = Some zL →
  activations !! (length ws - 1) = Some a →
  ∃ lp gp delta gb gw,
    loss_prime aL y = inr lp
    ∧ g_prime zL = inr gp
    ∧ mul lp gp = inr delta
    ∧ matmul delta (ones n 1) = inr gb
    ∧ matmul delta (transpose a) = inr gw
    ∧ shape delta = (dim_at dimensions (length ws), n)
    ∧ delta_of (length ws) delta
    ∧ ginv 1 [gw] [gb].
Proof.
  pose proof layer_count as HL.
  intros HaL HzL Ha.
  pose proof (Hsh_a _ _ HaL) as SaL. rewrite Nat.add_0_l in SaL.
  pose proof (Hsh_z _ _ HzL) as SzL.
  replace (1 + (length ws - 1)) with (length ws) in SzL by lia.
  pose proof (Hsh_a _ _ Ha) as Sa. rewrite Nat.add_0_l in Sa.
  destruct (zipwith_same_shape fsub aL y ltac:(by rewrite SaL, Hy)) as (lp & Elp & Slp).
  fold (sub aL y) in Elp. fold (loss_prime aL y) in Elp.
  destruct (g_prime_ok zL) as (gp & Egp & Sgp).
  destruct (zipwith_same_shape fmul lp gp ltac:(by rewrite Slp, Sgp, SaL, SzL))
    as (delta & Ed & Sd).
  fold (mul lp gp) in Ed.
  assert (Sdl : shape delta = (dim_at dimensions (S (length ws - 1)), n)).
  { rewrite Sd, Slp, SaL. by replace (S (length ws - 1)) with (length ws) by lia. }
  destruct (layer_gradients (length ws - 1) delta a Sdl Sa)
    as (gb & gw & Egb & Egw & Sgw & Sgb).
  replace (S (length ws - 1)) with (length ws) in * by lia.
  assert (Hd : delta_of (length ws) delta) by (by eapply delta_output).
  exists lp, gp, delta, gb, gw.
  do 7 (split; [done|]). split; [done|]. split; [done|].
  intros k Hk. assert (k = 0) as -> by lia. rewrite !Nat.sub_0_r.
  exists delta, a, gw, gb. by do 7 (split; [done|]).
Qed.

(** [backward] on a model that holds [ws] and the record [activations],
    [zs] of a forward pass. *)
Lemma backward_shaped (m : model F) :
  m !! "weights" = Some (VList ws) →
  m !! "activations" = Some (VList activations) →
  m !! "w_inputs" = Some (VList zs) →
  ∃ gws gbs,
    backward y m = (inr tt, <["grad_biases" := VList gbs]>
                             (<["grad_weights" := VList gws]> m))
    ∧ length gws = length ws
    ∧ length gbs = length ws
    ∧ ∀ l, 1 ≤ l ≤ length ws →
        ∃ d a gw gb,
          delta_of l d
          ∧ activations !! (l - 1) = Some a
          ∧ gws !! (l - 1) = Some gw
          ∧ gbs !! (l - 1) = Some gb
          ∧ matmul d (ones (ncols y) 1) = inr gb
          ∧ matmul d (transpose a) = inr gw
          ∧ shape gw = (dim_at dimensions l, dim_at dimensions (l - 1))
          ∧ shape gb = (dim_at dimensions l, 1).
Proof.
  pose proof layer_count as HL.
  intros Hw Ha Hz.
  destruct (activation_at (length ws) ltac:(lia)) as (aL & HaL & _).
  destruct (weighted_input_at (length ws - 1) ltac:(lia)) as (zL & HzL & _).
  destruct (activation_at (length ws - 1) ltac:(lia)) as (a & Hal & _).
  destruct (output_layer aL zL a HaL HzL Hal)
    as (lp & gp & delta & gb & gw & Elp & Egp & Ed & Egb & Egw & Sd & Hd & Hinv).
  destruct (backward_loop_inv (length ws - 1) 0 delta [gw] [gb] ltac:(lia))
    as (gws & gbs & Eloop & Lw & Lb & Hk); [by rewrite Nat.sub_0_r..|done|].
  rewrite drop_0 in Eloop.
  assert (Hn : ncols y = n) by (by apply shape_inv in Hy as [_ ?]).
  exists (rev gws), (rev gbs).
  split; [|split; [by rewrite length_rev|split; [by rewrite length_rev|]]].
  - unfold backward. rewrite Hn.
    rewrite (bind_inr _ _ _ _ _ (getlist_Some _ _ _ Ha)).
    rewrite (bind_inr _ _ m _ m (lift_inr _ aL _
               (py_index_neg activations 1 aL ltac:(lia) ltac:(lia)
                  ltac:(by rewrite Hlen_a, Nat.sub_1_r)))).
    rewrite (bind_inr _ _ _ _ _ (getlist_Some _ _ _ Hz)).
    rewrite (bind_inr _ _ m _ m (lift_inr _ zL _
               (py_index_neg zs 1 zL ltac:(lia) ltac:(lia)
                  ltac:(by rewrite Hlen_z)))).
    rewrite (bind_inr _ _ _ _ _ (getlist_Some _ _ _ Ha)).
    rewrite (bind_inr _ _ m _ m (lift_inr _ a _
               (py_index_neg activations 2 a ltac:(lia) ltac:(lia)
                  ltac:(by rewrite Hlen_a; replace (S (length ws) - 2) with (length ws - 1) by lia)))).
    rewrite (bind_inr _ _ m _ m (lift_inr _ _ _ Elp)).
    rewrite (bind_inr _ _ m _ m (lift_inr _ _ _ Egp)).
    rewrite (bind_inr _ _ m _ m (lift_inr _ _ _ Ed)).
    rewrite (bind_inr _ _ m _ m (lift_inr _ _ _ Egb)).
    rewrite (bind_inr _ _ m _ m (lift_inr _ _ _ Egw)).
    rewrite (bind_inr _ _ _ _ _ (getlist_Some _ _ _ Hw)).
    rewrite (bind_inr _ _ _ _ _ (getlist_Some _ _ _ Hz)).
    rewrite (bind_inr _ _ _ _ _ (getlist_Some _ _ _ Ha)).
    rewrite (bind_inr _ _ m _ m (lift_inr _ _ _ Eloop)).
    cbn [fst snd]. rewrite !py_slice_rev_all. done.
  - intros l Hl.
    destruct (Hk (length ws - l) ltac:(lia))
      as (d & a0 & gw0 & gb0 & Hd0 & Ha0 & Hgw & Hgb & Egb0 & Egw0 & Sgw & Sgb).
    replace (length ws - (length ws - l)) with l in * by lia.
    replace (length ws - 1 - (length ws - l)) with (l - 1) in * by lia.
    exists d, a0, gw0, gb0. rewrite Hn.
    rewrite !rev_lookup_lt by lia. rewrite Lw, Lb.
    replace (length ws - 1 - (l - 1)) with (length ws - l) by lia.
    done.
Qed.

End Backward.

(** The error terms are determined by the model and the target. *)

Section ErrorTermFacts.
Context {F : Type} `{Float F}.
Variables (ws zs activations : list (ndarray F)) (y : ndarray F).

Lemma spec_delta_functional (l : nat) (d1 d2 : ndarray F) :
  spec_delta ws zs activations y l d1 →
  spec_delta ws zs activations y l d2 →
  d1 = d2.
Proof.
  intros H1. revert d2.
  induction H1 as [aL zL lg gp d HaL HzL Elg Egp Ed
                  |l W z d t gp d' Hl Hprev IH HW Hz Et Egp Ed];
    intros d2 H2.
  - inversion H2 as [aL' zL' lg' gp' ? HaL' HzL' Elg' Egp' Ed'
                    |? W' ? ? ? ? ? ? ? HW' ? ? ? ?]; subst.
    + congruence.
    + rewrite lookup_ge_None_2 in HW' by lia. done.
  - inversion H2 as [aL' zL' lg' gp' ? HaL' HzL' Elg' Egp' Ed' Heq
                    |? W' z' d0 t' gp' ? ? Hprev' HW' Hz' Et' Egp' Ed']; subst.
    + rewrite lookup_ge_None_2 in HW by lia. done.
    + pose proof (IH _ Hprev') as <-. congruence.
Qed.

End ErrorTermFacts.

(** Whatever the model and the target, [backward] writes nothing but its
    two final entries: it either leaves the dict as it was (every raise
    comes before the first write) or returns with both written. *)

Section BackwardWrites.
Context {F : Type} `{Float F}.

Lemma backward_writes_only_gradients (y : ndarray F) (m : model F) :
  (backward y m).2 = m
  ∨ ∃ gws gbs,
      backward y m
      = (inr tt, <["grad_biases" := VList gbs]> (<["grad_weights" := VList gws]> m)).
Proof.
  unfold backward, getlist, getitem, lift, setitem, bind.
  repeat (case_match; simplify_eq/=; try (by left)).
  right. by eexists _, _.
Qed.

End BackwardWrites.

(** ** [forward] followed by [backward] *)

Section Pipeline.
Context {F : Type} `{Float F}.
Context {rng : Type} (gauss : rng → F * rng) (can_alloc : Z → bool).

(** What one forward pass and one backward pass do to an initialized model
    of at least one layer. *)
Lemma forward_backward (dimensions : list Z) (s s' : rng)
    (m0 m : model F) (x out y : ndarray F) :
  initialize_model gauss can_alloc dimensions s = (inr m0, s') →
  2 ≤ length dimensions →
  forward x m0 = (inr out, m) →
  shape y = shape out →
  ∃ ws bs activations zs gws gbs,
    m0 = <["nlayers" := VInt (Z.of_nat (length dimensions) - 1)]>
           (<["biases" := VList bs]> (<["weights" := VList ws]> ∅))
    ∧ m = <["w_inputs" := VList zs]> (<["activations" := VList activations]> m0)
    ∧ params_shaped dimensions ws bs
    ∧ backward y m = (inr tt, <["grad_biases" := VList gbs]>
                               (<["grad_weights" := VList gws]> m))
    ∧ length gws = length ws
    ∧ length gbs = length ws
    ∧ ∀ l, 1 ≤ l ≤ length ws →
        ∃ d a gw gb,
          spec_delta ws zs activations y l d
          ∧ activations !! (l - 1) = Some a
          ∧ gws !! (l - 1) = Some gw
          ∧ gbs !! (l - 1) = Some gb
          ∧ matmul d (ones (ncols y) 1) = inr gb
          ∧ matmul d (transpose a) = inr gw
          ∧ shape gw = (dim_at dimensions l, dim_at dimensions (l - 1))
          ∧ shape gb = (dim_at dimensions l, 1).
Proof.
  intros Einit Hlen Efwd Hy.
  destruct (initialize_model_inr gauss can_alloc _ _ _ _ Einit) as (ws & bs & -> & Hsh & _).
  set (m0 := <["nlayers" := _]> _) in *.
  destruct (initialized_lookups (Z.of_nat (length dimensions) - 1) ws bs)
    as (Hw & Hb & _). fold m0 in Hw, Hb.
  destruct (decide (nrows x = dim_at dimensions 0)) as [Hrows|Hrows].
  2:{ rewrite (forward_first_product dimensions ws bs Hsh m0 x Hlen Hw Hb Hrows) in Efwd.
      done. }
  assert (Hx : shape x = (dim_at dimensions 0, ncols x)).
  { unfold shape. by rewrite Hrows. }
  destruct (forward_shaped dimensions ws bs x (ncols x) Hsh Hx m0 Hw Hb)
    as (out' & activations & zs & E & La & Lz & H0 & HL & Sa & Sz & Hrec).
  rewrite E in Efwd. injection Efwd as -> <-.
  set (m := <["w_inputs" := _]> _).
  assert (Hmw : m !! "weights" = Some (VList ws)).
  { subst m. by rewrite !lookup_insert_ne. }
  assert (Hma : m !! "activations" = Some (VList activations)).
  { subst m. rewrite lookup_insert_ne by done. apply lookup_insert_eq. }
  assert (Hmz : m !! "w_inputs" = Some (VList zs)).
  { subst m. apply lookup_insert_eq. }
  assert (Hy' : shape y = (dim_at dimensions (length ws), ncols x)).
  { rewrite Hy. pose proof (Sa _ _ HL) as So. by rewrite Nat.add_0_l in So. }
  destruct (backward_shaped dimensions ws bs zs activations y (ncols x)
              Hlen Hsh La Lz Sa Sz Hy' m Hmw Hma Hmz)
    as (gws & gbs & Ebwd & Lgw & Lgb & Hgrad).
  exists ws, bs, activations, zs, gws, gbs. done.
Qed.

(** C4.  After a forward pass on an initialized model of L >= 1 layers and
    for a target shaped like the output, [backward] stores
    ['grad_weights'] and ['grad_biases'] with L entries each, entry [l]
    shaped like [W_l] and [b_l]; with the error terms
    [delta_L = loss_prime(a_L, y) * g_prime(z_L)] and
    [delta_(l-1) = (W_l).T @ delta_l * g_prime(z_(l-1))], entry [l] of
    ['grad_biases'] is [delta_l @ ones((batch, 1))] and entry [l] of
    ['grad_weights'] is [delta_l @ (a_(l-1)).T]. *)
Theorem backward_stores_gradients (dimensions : list Z) (s s' : rng)
    (m0 m : model F) (x out y : ndarray F) :
  initialize_model gauss can_alloc dimensions s = (inr m0, s') →
  2 ≤ length dimensions →
  forward x m0 = (inr out, m) →
  shape y = shape out →
  ∃ ws bs activations zs gws gbs,
    m !! "weights" = Some (VList ws)
    ∧ m !! "biases" = Some (VList bs)
    ∧ m !! "activations" = Some (VList activations)
    ∧ m !! "w_inputs" = Some (VList zs)
    ∧ backward y m = (inr tt, <["grad_biases" := VList gbs]>
                               (<["grad_weights" := VList gws]> m))
    ∧ length ws = length dimensions - 1
    ∧ length gws = length ws
    ∧ length gbs = length bs
    ∧ ∀ l, 1 ≤ l ≤ length dimensions - 1 →
        ∃ d a W b gw gb,
          spec_delta ws zs activations y l d
          ∧ activations !! (l - 1) = Some a
          ∧ ws !! (l - 1) = Some W
          ∧ bs !! (l - 1) = Some b
          ∧ gws !! (l - 1) = Some gw
          ∧ gbs !! (l - 1) = Some gb
          ∧ matmul d (ones (ncols y) 1) = inr gb
          ∧ matmul d (transpose a) = inr gw
          ∧ shape gw = shape W
          ∧ shape gb = shape b.
Proof.
  intros Einit Hlen Efwd Hy.
  destruct (forward_backward _ _ _ _ _ _ _ _ Einit Hlen Efwd Hy)
    as (ws & bs & activations & zs & gws & gbs & -> & -> & Hsh & Ebwd & Lgw & Lgb & Hgrad).
  pose proof Hsh as (Lw & Lb & Hlayers).
  exists ws, bs, activations, zs, gws, gbs.
  split; [rewrite !lookup_insert_ne by done; apply lookup_insert_eq|].
  split; [rewrite !lookup_insert_ne by done; apply lookup_insert_eq|].
  split; [rewrite lookup_insert_ne by done; apply lookup_insert_eq|].
  split; [apply lookup_insert_eq|].
  split; [done|]. split; [done|]. split; [done|]. split; [lia|].
  intros l Hl.
  destruct (Hgrad l ltac:(lia)) as (d & a & gw & gb & Hd & Ha & Hgw & Hgb & Egb & Egw & Sgw & Sgb).
  destruct (Hlayers (l - 1) ltac:(lia)) as (W & b & HW & Hb & SW & Sb).
  replace (S (l - 1)) with l in SW, Sb by lia.
  exists d, a, W, b, gw, gb. rewrite SW, Sb. done.
Qed.

(** C10.  After a forward pass on an initialized model and for a target
    shaped like the output, the dict that [backward] leaves differs from
    the one it was given at most at ['grad_weights'] and ['grad_biases']:
    weights, biases, nlayers, activations and weighted inputs are the same
    values as before.  With at least one layer [backward] returns and the
    dict then holds both gradient entries. *)
Theorem backward_frame (dimensions : list Z) (s s' : rng)
    (m0 m : model F) (x out y : ndarray F) :
  initialize_model gauss can_alloc dimensions s = (inr m0, s') →
  forward x m0 = (inr out, m) →
  shape y = shape out →
  ∃ r m',
    backward y m = (r, m')
    ∧ m' !! "weights" = m !! "weights"
    ∧ m' !! "biases" = m !! "biases"
    ∧ m' !! "nlayers" = m !! "nlayers"
    ∧ m' !! "activations" = m !! "activations"
    ∧ m' !! "w_inputs" = m !! "w_inputs"
    ∧ (∀ k, k ≠ "grad_weights" → k ≠ "grad_biases" → m' !! k = m !! k)
    ∧ (2 ≤ length dimensions →
       r = inr tt ∧ is_Some (m' !! "grad_weights") ∧ is_Some (m' !! "grad_biases")).
Proof.
  intros Einit Efwd Hy.
  destruct (backward y m) as [r m'] eqn:E. exists r, m'. split; [done|].
  assert (Hframe : ∀ k, k ≠ "grad_weights" → k ≠ "grad_biases" → m' !! k = m !! k).
  { intros k Hk1 Hk2.
    destruct (backward_writes_only_gradients y m) as [Hsame|(gws & gbs & E')];
      rewrite E in *.
    - cbn in Hsame. by subst m'.
    - injection E' as _ ->. by rewrite !lookup_insert_ne. }
  do 5 (split; [by apply Hframe|]). split; [exact Hframe|].
  intros Hlen.
  destruct (forward_backward _ _ _ _ _ _ _ _ Einit Hlen Efwd Hy)
    as (ws & bs & activations & zs & gws & gbs & _ & _ & _ & Ebwd & _).
  rewrite E in Ebwd. injection Ebwd as -> ->.
  split; [done|]. split.
  - rewrite lookup_insert_ne by done. rewrite lookup_insert_eq. by eexists.
  - rewrite lookup_insert_eq. by eexists.
Qed.

(** C8.  A freshly initialized model has no ['activations'] entry:
    [backward] raises [KeyError] on its first read and leaves the model
    as it was. *)
Theorem backward_requires_forward (dimensions : list Z) (s s' : rng)
    (m : model F) (y : ndarray F) :
  initialize_model gauss can_alloc dimensions s = (inr m, s') →
  backward y m = (inl (KeyError "activations"), m).
Proof.
  intros Einit.
  destruct (initialize_model_inr gauss can_alloc _ _ _ _ Einit) as (ws & bs & -> & _).
  destruct (initialized_lookups (Z.of_nat (length dimensions) - 1) ws bs)
    as (_ & _ & _ & Hnone).
  unfold backward. apply bind_inl, getlist_None. by apply Hnone.
Qed.

(** C3 (the code departs from it).  The specification wants a round trip
    with a zero learning rate to return the model with its weights and
    biases unchanged.  On an initialized model of at least one layer, with
    an input and a target of matching shapes, and for every learning rate,
    zero included, [forward] and [backward] succeed and [update] raises
    [KeyError('grad_weights')]: no model is returned.  The dict left behind
    still holds the weights and biases it was initialized with. *)
Theorem train_step_never_returns (dimensions : list Z) (s s' : rng)
    (m0 : model F) (eta : F) (x y : ndarray F) :
  initialize_model gauss can_alloc dimensions s = (inr m0, s') →
  2 ≤ length dimensions →
  shape x = (dim_at dimensions 0, ncols y) →
  nrows y = dim_at dimensions (length dimensions - 1) →
  ∃ m', train_step eta x y m0 = (inl (KeyError "grad_weights"), m')
        ∧ m' !! "weights" = m0 !! "weights"
        ∧ m' !! "biases" = m0 !! "biases".
Proof.
  intros Einit Hlen Hx Hy.
  destruct (initialize_model_inr gauss can_alloc _ _ _ _ Einit) as (ws & bs & Em0 & Hsh & _).
  destruct (initialized_lookups (Z.of_nat (length dimensions) - 1) ws bs)
    as (Hw & Hb & _). rewrite <- Em0 in Hw, Hb.
  destruct (forward_shaped dimensions ws bs x (ncols y) Hsh Hx m0 Hw Hb)
    as (out & activations & zs & Efwd & La & Lz & H0 & HL & Sa & Sz & Hrec).
  pose proof (Sa _ _ HL) as So. rewrite Nat.add_0_l in So.
  pose proof Hsh as (Lw & _).
  assert (Hyo : shape y = shape out).
  { rewrite So, Lw. unfold shape. by rewrite Hy. }
  destruct (forward_backward _ _ _ _ _ _ _ _ Einit Hlen Efwd Hyo)
    as (ws' & bs' & activations' & zs' & gws & gbs & _ & _ & _ & Ebwd & _).
  set (m1 := <["w_inputs" := _]> _) in *.
  set (m2 := <["grad_biases" := VList gbs]> _) in *.
  destruct (update_deletes_then_raises_aux eta m2) as (key & m' & Eupd & Hkey & Hmw & Hmb).
  { subst m2 m1. rewrite !lookup_insert_ne by done. by rewrite lookup_insert_eq. }
  { subst m2 m1. rewrite !lookup_insert_ne by done. by rewrite lookup_insert_eq. }
  { subst m2. rewrite lookup_insert_ne by done. by rewrite lookup_insert_eq. }
  { subst m2. by rewrite lookup_insert_eq. }
  assert (Hw2 : m2 !! "weights" = m0 !! "weights").
  { subst m2 m1. by rewrite !lookup_insert_ne. }
  assert (Hb2 : m2 !! "biases" = m0 !! "biases").
  { subst m2 m1. by rewrite !lookup_insert_ne. }
  exists m'. unfold train_step.
  rewrite (bind_inr _ _ _ _ _ Efwd), (bind_inr _ _ _ _ _ Ebwd).
  rewrite (bind_inl _ _ _ _ _ Eupd).
  rewrite Hkey; [|rewrite Hw2, Hw; by eexists|rewrite Hb2, Hb; by eexists].
  split; [done|]. by rewrite Hmw, Hmb.
Qed.

End Pipeline.

(** ** The concrete run *)

Example forward_ex_2_1 :
  forward ex_x ex_model_2_1 = (inr ex_out, ex_model_fwd).
Proof. reflexivity. Qed.

(** The round trip with a zero learning rate, on the model of
    [initialize_model([2, 1])]: the three entries of the initialized model
    are all that is left when [update] raises. *)
Example train_step_zero_rate_ex :
  train_step 0%R ex_x ex_y ex_model_2_1
  = (inl (KeyError "grad_weights"), ex_model_2_1).
Proof. reflexivity. Qed.

Lemma train_step_never_returns_witness :
  initialize_model ex_gauss ex_can_alloc [2%Z; 1%Z] 0 = (inr ex_model_2_1, 3)
  ∧ 2 ≤ length [2%Z; 1%Z]
  ∧ shape ex_x = (dim_at [2%Z; 1%Z] 0, ncols ex_y)
  ∧ nrows ex_y = dim_at [2%Z; 1%Z] (length [2%Z; 1%Z] - 1)
  ∧ ∃ m', train_step 0%R ex_x ex_y ex_model_2_1 = (inl (KeyError "grad_weights"), m')
          ∧ m' !! "weights" = ex_model_2_1 !! "weights"
          ∧ m' !! "biases" = ex_model_2_1 !! "biases".
Proof.
  assert (H1 : initialize_model ex_gauss ex_can_alloc [2%Z; 1%Z] 0 = (inr ex_model_2_1, 3))
    by reflexivity.
  assert (H2 : 2 ≤ length [2%Z; 1%Z]) by (simpl; lia).
  assert (H3 : shape ex_x = (dim_at [2%Z; 1%Z] 0, ncols ex_y)) by reflexivity.
  assert (H4 : nrows ex_y = dim_at [2%Z; 1%Z] (length [2%Z; 1%Z] - 1)) by reflexivity.
  split; [exact H1|]. split; [exact H2|]. split; [exact H3|]. split; [exact H4|].
  exact (train_step_never_returns ex_gauss ex_can_alloc [2%Z; 1%Z] 0 3 ex_model_2_1 0%R
           ex_x ex_y H1 H2 H3 H4).
Defined.

Lemma update_deletes_then_raises_witness :
  ex_model_bwd !! "activations" = Some (VList [ex_x; ex_out])
  ∧ ex_model_bwd !! "w_inputs" = Some (VList [ex_z])
  ∧ ex_model_bwd !! "grad_weights" = Some (VList [mkArr 1 2 [0%R; 0%R]])
  ∧ ex_model_bwd !! "grad_biases" = Some (VList [mkArr 1 1 [0%R]])
  ∧ ∃ key m',
      update 0%R ex_model_bwd = (inl (KeyError key), m')
      ∧ m' = delete "grad_biases" (delete "grad_weights"
               (delete "w_inputs" (delete "activations" ex_model_bwd)))
      ∧ (is_Some (ex_model_bwd !! "weights") → is_Some (ex_model_bwd !! "biases")
         → key = "grad_weights")
      ∧ m' !! "weights" = ex_model_bwd !! "weights"
      ∧ m' !! "biases" = ex_model_bwd !! "biases".
Proof.
  assert (H1 : ex_model_bwd !! "activations" = Some (VList [ex_x; ex_out]))
    by reflexivity.
  assert (H2 : ex_model_bwd !! "w_inputs" = Some (VList [ex_z])) by reflexivity.
  assert (H3 : ex_model_bwd !! "grad_weights" = Some (VList [mkArr 1 2 [0%R; 0%R]]))
    by reflexivity.
  assert (H4 : ex_model_bwd !! "grad_biases" = Some (VList [mkArr 1 1 [0%R]]))
    by reflexivity.
  split; [exact H1|]. split; [exact H2|]. split; [exact H3|]. split; [exact H4|].
  exact (update_deletes_then_raises 0%R ex_model_bwd _ _ _ _ H1 H2 H3 H4).
Defined.

Lemma backward_stores_gradients_witness :
  initialize_model ex_gauss ex_can_alloc [2%Z; 1%Z] 0 = (inr ex_model_2_1, 3)
  ∧ 2 ≤ length [2%Z; 1%Z]
  ∧ forward ex_x ex_model_2_1 = (inr ex_out, ex_model_fwd)
  ∧ shape ex_y = shape ex_out
  ∧ ∃ ws bs activations zs gws gbs,
      ex_model_fwd !! "weights" = Some (VList ws)
      ∧ ex_model_fwd !! "biases" = Some (VList bs)
      ∧ ex_model_fwd !! "activations" = Some (VList activations)
      ∧ ex_model_fwd !! "w_inputs" = Some (VList zs)
      ∧ backward ex_y ex_model_fwd
        = (inr tt, <["grad_biases" := VList gbs]>
                     (<["grad_weights" := VList gws]> ex_model_fwd))
      ∧ length ws = length [2%Z; 1%Z] - 1
      ∧ length gws = length ws
      ∧ length gbs = length bs
      ∧ ∀ l, 1 ≤ l ≤ length [2%Z; 1%Z] - 1 →
          ∃ d a W b gw gb,
            spec_delta ws zs activations ex_y l d
            ∧ activations !! (l - 1) = Some a
            ∧ ws !! (l - 1) = Some W
            ∧ bs !! (l - 1) = Some b
            ∧ gws !! (l - 1) = Some gw
            ∧ gbs !! (l - 1) = Some gb
            ∧ matmul d (ones (ncols ex_y) 1) = inr gb
            ∧ matmul d (transpose a) = inr gw
            ∧ shape gw = shape W
            ∧ shape gb = shape b.
Proof.
  assert (H1 : initialize_model ex_gauss ex_can_alloc [2%Z; 1%Z] 0 = (inr ex_model_2_1, 3))
    by reflexivity.
  assert (H2 : 2 ≤ length [2%Z; 1%Z]) by (simpl; lia).
  assert (H3 : forward ex_x ex_model_2_1 = (inr ex_out, ex_model_fwd)) by reflexivity.
  assert (H4 : shape ex_y = shape ex_out) by reflexivity.
  split; [exact H1|]. split; [exact H2|]. split; [exact H3|]. split; [exact H4|].
  exact (backward_stores_gradients ex_gauss ex_can_alloc [2%Z; 1%Z] 0 3 ex_model_2_1 ex_model_fwd
           ex_x ex_out ex_y H1 H2 H3 H4).
Defined.

Lemma backward_frame_witness :
  initialize_model ex_gauss ex_can_alloc [2%Z; 1%Z] 0 = (inr ex_model_2_1, 3)
  ∧ forward ex_x ex_model_2_1 = (inr ex_out, ex_model_fwd)
  ∧ shape ex_y = shape ex_out
  ∧ ∃ r m',
      backward ex_y ex_model_fwd = (r, m')
      ∧ m' !! "weights" = ex_model_fwd !! "weights"
      ∧ m' !! "biases" = ex_model_fwd !! "biases"
      ∧ m' !! "nlayers" = ex_model_fwd !! "nlayers"
      ∧ m' !! "activations" = ex_model_fwd !! "activations"
      ∧ m' !! "w_inputs" = ex_model_fwd !! "w_inputs"
      ∧ (∀ k, k ≠ "grad_weights" → k ≠ "grad_biases" → m' !! k = ex_model_fwd !! k)
      ∧ (2 ≤ length [2%Z; 1%Z] →
         r = inr tt ∧ is_Some (m' !! "grad_weights") ∧ is_Some (m' !! "grad_biases")).
Proof.
  assert (H1 : initialize_model ex_gauss ex_can_alloc [2%Z; 1%Z] 0 = (inr ex_model_2_1, 3))
    by reflexivity.
  assert (H2 : forward ex_x ex_model_2_1 = (inr ex_out, ex_model_fwd)) by reflexivity.
  assert (H3 : shape ex_y = shape ex_out) by reflexivity.
  split; [exact H1|]. split; [exact H2|]. split; [exact H3|].
  exact (backward_frame ex_gauss ex_can_alloc [2%Z; 1%Z] 0 3 ex_model_2_1 ex_model_fwd
           ex_x ex_out ex_y H1 H2 H3).
Defined.

Lemma backward_requires_forward_witness :
  initialize_model ex_gauss ex_can_alloc [2%Z; 1%Z] 0 = (inr ex_model_2_1, 3)
  ∧ backward ex_y ex_model_2_1 = (inl (KeyError "activations"), ex_model_2_1).
Proof.
  assert (H1 : initialize_model ex_gauss ex_can_alloc [2%Z; 1%Z] 0 = (inr ex_model_2_1, 3))
    by reflexivity.
  split; [exact H1|].
  exact (backward_requires_forward ex_gauss ex_can_alloc [2%Z; 1%Z] 0 3 ex_model_2_1 ex_y H1).
Defined.

(** A model built from a single width has no layers: [forward] returns its
    input whatever its shape. *)
Example forward_no_layers_ex :
  forward ex_x_bad ex_model_5
  = (inr ex_x_bad, <["w_inputs" := VList []]>
                     (<["activations" := VList [ex_x_bad]]> ex_model_5)).
Proof. reflexivity. Qed.

(** With no layers there is no weighted input to start from: after
    [forward], [backward] raises [IndexError] at [model['w_inputs'][-1]]. *)
Example backward_no_layers_ex :
  backward ex_x_bad
    (<["w_inputs" := VList []]> (<["activations" := VList [ex_x_bad]]> ex_model_5))
  = (inl IndexError,
     <["w_inputs" := VList []]> (<["activations" := VList [ex_x_bad]]> ex_model_5)).
Proof. reflexivity. Qed.

(** * Further properties of the notebook's functions *)

(** ** More on [forward] *)

Section MoreForward.
Context {F : Type} `{Float F}.

(** [forward], step by step: two dict reads, two uses as lists, the loop,
    then the two writes. *)
Lemma forward_eval (x : ndarray F) (m : model F) :
  forward x m
  = match m !! "weights" with
    | None => (inl (KeyError "weights"), m)
    | Some vw =>
        match m !! "biases" with
        | None => (inl (KeyError "biases"), m)
        | Some vb =>
            match as_list vw with
            | inl e => (inl e, m)
            | inr ws =>
                match as_list vb with
                | inl e => (inl e, m)
                | inr bs =>
                    match forward_loop (zip ws bs) x [x] [] with
                    | inl e => (inl e, m)
                    | inr r => (inr r.1.1,
                                <["w_inputs" := VList r.2]>
                                  (<["activations" := VList r.1.2]> m))
                    end
                end
            end
        end
    end.
Proof.
  unfold forward, getitem, lift, setitem, bind, ret.
  repeat (case_match; simplify_eq/=; try done).
Qed.

(** What the loop records: one weighted input per pair of the zip, and
    next to each its image under [g]. *)
Lemma forward_loop_record (its : list (ndarray F * ndarray F)) :
  ∀ a activations zs a' activations' zs',
    forward_loop its a activations zs = inr (a', activations', zs') →
    ∃ new_zs,
      zs' = zs ++ new_zs
      ∧ activations' = activations ++ map g new_zs
      ∧ length new_zs = length its
      ∧ last (a :: map g new_zs) = Some a'.
Proof.
  induction its as [|[W b] its IH]; intros a activations zs a' activations' zs' E.
  - cbn in E. injection E as <- <- <-. exists []. by rewrite !app_nil_r.
  - cbn [forward_loop] in E.
    destruct (matmul W a) as [e|p]; [done|]. cbn [rbind] in E.
    destruct (add p b) as [e|z]; [done|]. cbn [rbind] in E.
    destruct (IH _ _ _ _ _ _ E) as (nz & -> & -> & Hlen & Hlast).
    exists (z :: nz). rewrite <- !app_assoc. cbn [app map length].
    split; [done|]. split; [done|]. split; [by rewrite Hlen|]. exact Hlast.
Qed.

(** X1.  A missing ['weights'] or ['biases'] entry.  [forward] reads
    ['weights'] first: without it the call raises [KeyError('weights')],
    with it but without ['biases'] it raises [KeyError('biases')]; either
    way the dict is left as it was. *)
Theorem forward_missing_params (x : ndarray F) (m : model F) :
  (m !! "weights" = None → forward x m = (inl (KeyError "weights"), m))
  ∧ (is_Some (m !! "weights") → m !! "biases" = None →
     forward x m = (inl (KeyError "biases"), m)).
Proof.
  rewrite forward_eval. split.
  - by intros ->.
  - by intros [vw ->] ->.
Qed.

(** X2.  [forward] is all or nothing.  Whatever the model and the input, a
    call that raises leaves the dict exactly as it was, and a call that
    returns has changed nothing but ['activations'] and ['w_inputs']. *)
Theorem forward_touches_only_cache (x : ndarray F) (m : model F) :
  (∀ e, (forward x m).1 = inl e → (forward x m).2 = m)
  ∧ (∀ k, k ≠ "activations" → k ≠ "w_inputs" → (forward x m).2 !! k = m !! k).
Proof.
  rewrite forward_eval.
  repeat case_match; cbn; (split; [done || by intros ?|]); try done;
    intros k Hk1 Hk2; by rewrite !lookup_insert_ne.
Qed.

(** X3.  What a successful [forward] records.  The layers it runs are the
    pairs of [zip(weights, biases)], so their number is the shorter of the
    two lengths; the recorded activations are the input followed by [g] of
    each recorded weighted input, and the returned array is the last of
    them. *)
Theorem forward_records_run (x out : ndarray F) (m m' : model F) :
  forward x m = (inr out, m') →
  ∃ ws bs zs,
    m !! "weights" = Some (VList ws)
    ∧ m !! "biases" = Some (VList bs)
    ∧ m' = <["w_inputs" := VList zs]> (<["activations" := VList (x :: map g zs)]> m)
    ∧ length zs = length ws `min` length bs
    ∧ last (x :: map g zs) = Some out.
Proof.
  rewrite forward_eval. intros E.
  destruct (m !! "weights") as [vw|]; [|done].
  destruct (m !! "biases") as [vb|]; [|done].
  destruct vw as [?|ws]; [done|]. destruct vb as [?|bs]; [done|].
  cbn [as_list] in E.
  destruct (forward_loop (zip ws bs) x [x] []) as [e|[[a activations] zs]] eqn:El;
    [done|].
  destruct (forward_loop_record _ _ _ _ _ _ _ El) as (nz & Hz & Ha & Hlen & Hlast).
  cbn in Hz, Ha. subst zs activations. injection E as <- <-.
  exists ws, bs, nz. rewrite Hlen, length_zip_with. done.
Qed.

(** X4.  [forward] reads nothing but ['weights'] and ['biases'].  On two
    dicts that agree on these two entries it raises the same exception, or
    returns the same array and records the same lists; ['nlayers'] and any
    stale entry play no part. *)
Theorem forward_reads_only_params (x : ndarray F) (m1 m2 : model F) :
  m1 !! "weights" = m2 !! "weights" →
  m1 !! "biases" = m2 !! "biases" →
  (∃ e, forward x m1 = (inl e, m1) ∧ forward x m2 = (inl e, m2))
  ∨ (∃ out activations zs,
       forward x m1 = (inr out, <["w_inputs" := VList zs]>
                                  (<["activations" := VList activations]> m1))
       ∧ forward x m2 = (inr out, <["w_inputs" := VList zs]>
                                    (<["activations" := VList activations]> m2))).
Proof.
  intros Hw Hb. rewrite !forward_eval, Hw, Hb.
  repeat case_match; try (left; by eexists). right. by eexists _, _, _.
Qed.

(** X5.  Running [forward] again on the dict it returned, with the same
    input, returns the same array and leaves the dict as it is. *)
Theorem forward_twice (x out : ndarray F) (m m' : model F) :
  forward x m = (inr out, m') →
  forward x m' = (inr out, m').
Proof.
  rewrite !forward_eval. intros E.
  destruct (m !! "weights") as [vw|] eqn:Hw; [|done].
  destruct (m !! "biases") as [vb|] eqn:Hb; [|done].
  destruct (as_list vw) as [?|ws] eqn:Ew; [done|].
  destruct (as_list vb) as [?|bs] eqn:Eb; [done|].
  destruct (forward_loop (zip ws bs) x [x] []) as [e|r] eqn:El; [done|].
  injection E as <- <-.
  rewrite !lookup_insert_ne by done. rewrite Hw, Hb, Ew, Eb, El.
  f_equal. apply map_eq. intros k.
  destruct (decide (k = "w_inputs")) as [->|?]; [by rewrite !lookup_insert_eq|].
  rewrite !(lookup_insert_ne _ "w_inputs") by done.
  destruct (decide (k = "activations")) as [->|?]; [by rewrite !lookup_insert_eq|].
  by rewrite !lookup_insert_ne.
Qed.

End MoreForward.

(** ** More on [backward] *)

Section MoreBackward.
Context {F : Type} `{Float F}.

(** [backward] on a dict that holds the three lists it reads. *)
Lemma backward_eval (y : ndarray F) (m : model F) activations zs ws :
  m !! "activations" = Some (VList activations) →
  m !! "w_inputs" = Some (VList zs) →
  m !! "weights" = Some (VList ws) →
  backward y m
  = match backward_core y activations zs ws with
    | inl e => (inl e, m)
    | inr r => (inr tt, <["grad_biases" := VList (rev r.2)]>
                          (<["grad_weights" := VList (rev r.1)]> m))
    end.
Proof.
  intros Ha Hz Hw.
  unfold backward.
  rewrite (bind_inr _ _ _ _ _ (getlist_Some _ _ _ Ha)).
  unfold backward_core.
  destruct (py_index activations (-1)) as [e|yhat]; [reflexivity|]. cbn [rbind].
  rewrite (bind_inr _ _ m _ m (lift_inr _ _ _ eq_refl)).
  rewrite (bind_inr _ _ _ _ _ (getlist_Some _ _ _ Hz)).
  destruct (py_index zs (-1)) as [e|z]; [reflexivity|]. cbn [rbind].
  rewrite (bind_inr _ _ m _ m (lift_inr _ _ _ eq_refl)).
  rewrite (bind_inr _ _ _ _ _ (getlist_Some _ _ _ Ha)).
  destruct (py_index activations (-2)) as [e|a]; [reflexivity|]. cbn [rbind].
  rewrite (bind_inr _ _ m _ m (lift_inr _ _ _ eq_refl)).
  destruct (loss_prime yhat y) as [e|lp]; [reflexivity|]. cbn [rbind].
  rewrite (bind_inr _ _ m _ m (lift_inr _ _ _ eq_refl)).
  destruct (g_prime z) as [e|gp]; [reflexivity|]. cbn [rbind].
  rewrite (bind_inr _ _ m _ m (lift_inr _ _ _ eq_refl)).
  destruct (mul lp gp) as [e|delta]; [reflexivity|]. cbn [rbind].
  rewrite (bind_inr _ _ m _ m (lift_inr _ _ _ eq_refl)).
  destruct (matmul delta (ones (ncols y) 1)) as [e|grad_b]; [reflexivity|]. cbn [rbind].
  rewrite (bind_inr _ _ m _ m (lift_inr _ _ _ eq_refl)).
  destruct (matmul delta (transpose a)) as [e|grad_W]; [reflexivity|]. cbn [rbind].
  rewrite (bind_inr _ _ m _ m (lift_inr _ _ _ eq_refl)).
  rewrite (bind_inr _ _ _ _ _ (getlist_Some _ _ _ Hw)).
  rewrite (bind_inr _ _ _ _ _ (getlist_Some _ _ _ Hz)).
  rewrite (bind_inr _ _ _ _ _ (getlist_Some _ _ _ Ha)).
  cbn [rbind].
  destruct (backward_loop _ _ _ _ _) as [e|r]; [reflexivity|]. cbn [rbind].
  rewrite (bind_inr _ _ m _ m (lift_inr _ _ _ eq_refl)).
  by rewrite !py_slice_rev_all.
Qed.

(** [backward] reads nothing but ['activations'], ['w_inputs'] and
    ['weights']. *)
Lemma backward_congr (y : ndarray F) (m1 m2 : model F) :
  m1 !! "activations" = m2 !! "activations" →
  m1 !! "w_inputs" = m2 !! "w_inputs" →
  m1 !! "weights" = m2 !! "weights" →
  (∃ e, backward y m1 = (inl e, m1) ∧ backward y m2 = (inl e, m2))
  ∨ (∃ gws gbs,
       backward y m1 = (inr tt, <["grad_biases" := VList gbs]>
                                  (<["grad_weights" := VList gws]> m1))
       ∧ backward y m2 = (inr tt, <["grad_biases" := VList gbs]>
                                    (<["grad_weights" := VList gws]> m2))).
Proof.
  intros Ha Hz Hw.
  unfold backward, getlist, getitem, lift, setitem, bind.
  repeat (cbv beta iota; rewrite ?Ha, ?Hz, ?Hw;
          first [by left; eexists | case_match; simplify_eq]).
  right. by eexists _, _.
Qed.

(** A successful [backward] has found the three lists it reads. *)
Lemma backward_inr_reads (y : ndarray F) (m m' : model F) :
  backward y m = (inr tt, m') →
  ∃ activations zs ws,
    m !! "activations" = Some (VList activations)
    ∧ m !! "w_inputs" = Some (VList zs)
    ∧ m !! "weights" = Some (VList ws).
Proof.
  intros E. unfold backward, getlist, getitem, lift, setitem, bind in E.
  repeat (case_match; simplify_eq/=).
  repeat match goal with
         | Hv : as_list ?v = inr _ |- _ => destruct v; simplify_eq/=
         end.
  eexists _, _, _. repeat split; eauto.
Qed.

(** X6.  [backward] never reads ['biases'], ['nlayers'] or any entry other
    than ['activations'], ['w_inputs'] and ['weights']: putting any value
    under another key changes neither the outcome nor the gradients
    stored, and the value stays where it was put. *)
Theorem backward_ignores_other_entries (y : ndarray F) (m : model F)
    (k : string) (v : value F) :
  k ≠ "activations" → k ≠ "w_inputs" → k ≠ "weights" →
  k ≠ "grad_weights" → k ≠ "grad_biases" →
  backward y (<[k := v]> m) = ((backward y m).1, <[k := v]> (backward y m).2).
Proof.
  intros Hk1 Hk2 Hk3 Hk4 Hk5.
  destruct (backward_congr y (<[k := v]> m) m)
    as [(e & -> & ->)|(gws & gbs & -> & ->)];
    try (by rewrite lookup_insert_ne).
  - done.
  - cbn [fst snd]. f_equal.
    rewrite (insert_insert_ne _ "grad_weights" k) by done.
    by rewrite (insert_insert_ne _ "grad_biases" k).
Qed.

(** X7.  Running [backward] again on the dict it returned, with the same
    target, succeeds again and leaves the dict as it is. *)
Theorem backward_twice (y : ndarray F) (m m' : model F) :
  backward y m = (inr tt, m') →
  backward y m' = (inr tt, m').
Proof.
  intros E.
  destruct (backward_inr_reads _ _ _ E) as (activations & zs & ws & Ha & Hz & Hw).
  rewrite (backward_eval y m activations zs ws Ha Hz Hw) in E.
  destruct (backward_core y activations zs ws) as [e|r] eqn:Ec; [done|].
  injection E as <-.
  rewrite (backward_eval y _ activations zs ws), Ec;
    [|by rewrite !lookup_insert_ne..].
  f_equal. apply map_eq. intros k.
  destruct (decide (k = "grad_biases")) as [->|?]; [by rewrite !lookup_insert_eq|].
  rewrite !(lookup_insert_ne _ "grad_biases") by done.
  destruct (decide (k = "grad_weights")) as [->|?]; [by rewrite !lookup_insert_eq|].
  by rewrite !lookup_insert_ne.
Qed.

End MoreBackward.

(** ** [backward] and the shape of the target *)

Section TargetShapes.
Context {F : Type} `{Float F}.
Context {rng : Type} (gauss : rng → F * rng) (can_alloc : Z → bool).

(** adding a row to every row of a matrix *)
Lemma zipwith_row f (A B : ndarray F) :
  nrows B = 1 → ncols B = ncols A →
  ∃ C, zipwith f A B = inr C ∧ shape C = shape A.
Proof.
  intros Er Ec. unfold zipwith.
  rewrite Er, Ec, broadcast_dim_same, broadcast_dim_one. by eexists.
Qed.

(** the elementwise operators raise nothing but the shape mismatch *)
Lemma zipwith_inl f (A B : ndarray F) e :
  zipwith f A B = inl e → e = ValueError ShapeMismatch.
Proof. unfold zipwith. repeat case_match; congruence. Qed.

Lemma matmul_inr (A B C : ndarray F) :
  matmul A B = inr C → ncols A = nrows B ∧ shape C = (nrows A, ncols B).
Proof.
  unfold matmul. destruct (ncols A =? nrows B) eqn:E; [|done].
  intros [= <-]. split; [by apply Nat.eqb_eq|done].
Qed.

Lemma matmul_inl (A B : ndarray F) e :
  matmul A B = inl e → e = ValueError ShapeMismatch.
Proof. unfold matmul. case_match; congruence. Qed.

(** The dict after [forward] on an initialized model of at least one
    layer. *)
Lemma forward_on_initialized (dimensions : list Z) (s s' : rng)
    (m0 m : model F) (x out : ndarray F) :
  initialize_model gauss can_alloc dimensions s = (inr m0, s') →
  2 ≤ length dimensions →
  forward x m0 = (inr out, m) →
  ∃ ws bs activations zs,
    m !! "weights" = Some (VList ws)
    ∧ m !! "activations" = Some (VList activations)
    ∧ m !! "w_inputs" = Some (VList zs)
    ∧ params_shaped dimensions ws bs
    ∧ length activations = S (length ws)
    ∧ length zs = length ws
    ∧ cols_shaped dimensions 0 (ncols x) activations
    ∧ cols_shaped dimensions 1 (ncols x) zs
    ∧ activations !! length ws = Some out.
Proof.
  intros Einit Hlen Efwd.
  destruct (initialize_model_inr gauss can_alloc _ _ _ _ Einit) as (ws & bs & -> & Hsh & _).
  set (m0 := <["nlayers" := _]> _) in *.
  destruct (initialized_lookups (Z.of_nat (length dimensions) - 1) ws bs)
    as (Hw & Hb & _). fold m0 in Hw, Hb.
  destruct (decide (nrows x = dim_at dimensions 0)) as [Hrows|Hrows].
  2:{ rewrite (forward_first_product dimensions ws bs Hsh m0 x Hlen Hw Hb Hrows) in Efwd.
      done. }
  assert (Hx : shape x = (dim_at dimensions 0, ncols x)).
  { unfold shape. by rewrite Hrows. }
  destruct (forward_shaped dimensions ws bs x (ncols x) Hsh Hx m0 Hw Hb)
    as (out' & activations & zs & E & La & Lz & H0 & HL & Sa & Sz & Hrec).
  rewrite E in Efwd. injection Efwd as -> <-.
  exists ws, bs, activations, zs.
  split; [by rewrite !lookup_insert_ne|].
  split; [rewrite lookup_insert_ne by done; apply lookup_insert_eq|].
  split; [apply lookup_insert_eq|]. done.
Qed.

(** the three arrays [backward] indexes from the end of its lists *)
Lemma backward_indexed (dimensions : list Z) (ws bs activations zs : list (ndarray F))
    (n : nat) :
  2 ≤ length dimensions →
  params_shaped dimensions ws bs →
  length activations = S (length ws) →
  length zs = length ws →
  cols_shaped dimensions 0 n activations →
  cols_shaped dimensions 1 n zs →
  ∃ aL zL a,
    activations !! length ws = Some aL
    ∧ zs !! (length ws - 1) = Some zL
    ∧ activations !! (length ws - 1) = Some a
    ∧ py_index activations (-1) = inr aL
    ∧ py_index zs (-1) = inr zL
    ∧ py_index activations (-2) = inr a
    ∧ shape aL = (dim_at dimensions (length ws), n)
    ∧ shape zL = (dim_at dimensions (length ws), n)
    ∧ shape a = (dim_at dimensions (length ws - 1), n).
Proof.
  intros Hlen Hsh La Lz Sa Sz.
  assert (HL : 1 ≤ length ws) by (destruct Hsh as (Lw & _); lia).
  destruct (lookup_lt_is_Some_2 activations (length ws) ltac:(lia)) as [aL HaL].
  destruct (lookup_lt_is_Some_2 zs (length ws - 1) ltac:(lia)) as [zL HzL].
  destruct (lookup_lt_is_Some_2 activations (length ws - 1) ltac:(lia)) as [a Ha].
  exists aL, zL, a. do 3 (split; [done|]).
  split; [apply (py_index_neg activations 1); [lia|lia|by rewrite La, Nat.sub_1_r]|].
  split; [apply (py_index_neg zs 1); [lia|lia|by rewrite Lz]|].
  split; [apply (py_index_neg activations 2); [lia|lia|]|].
  { rewrite La. by replace (S (length ws) - 2) with (length ws - 1) by lia. }
  split; [by apply (Sa _ _ HaL)|]. split; [|by apply (Sa _ _ Ha)].
  pose proof (Sz _ _ HzL) as SzL.
  by replace (1 + (length ws - 1)) with (length ws) in SzL by lia.
Qed.

(** X8.  A target with the wrong number of columns.  After [forward] on an
    initialized model of at least one layer, a target whose column count
    is not the batch size makes [backward] raise the shape-mismatch
    [ValueError], whatever its row count, and the dict is left as it
    was. *)
Theorem backward_rejects_wrong_batch (dimensions : list Z) (s s' : rng)
    (m0 m : model F) (x out y : ndarray F) :
  initialize_model gauss can_alloc dimensions s = (inr m0, s') →
  2 ≤ length dimensions →
  forward x m0 = (inr out, m) →
  ncols y ≠ ncols x →
  backward y m = (inl (ValueError ShapeMismatch), m).
Proof.
  intros Einit Hlen Efwd Hcols.
  destruct (forward_on_initialized _ _ _ _ _ _ _ Einit Hlen Efwd)
    as (ws & bs & activations & zs & Hw & Ha & Hz & Hsh & La & Lz & Sa & Sz & _).
  destruct (backward_indexed dimensions ws bs activations zs (ncols x)
              Hlen Hsh La Lz Sa Sz)
    as (aL & zL & a & _ & _ & _ & EaL & EzL & Ea & _ & _ & Sha).
  rewrite (backward_eval y m activations zs ws Ha Hz Hw).
  unfold backward_core. rewrite EaL, EzL, Ea. cbn [rbind].
  destruct (loss_prime aL y) as [e|lp] eqn:Elp.
  { by rewrite (zipwith_inl _ _ _ _ Elp). }
  cbn [rbind]. destruct (g_prime zL) as [e|gp] eqn:Egp.
  { by rewrite (zipwith_inl _ _ _ _ Egp). }
  cbn [rbind]. destruct (mul lp gp) as [e|delta] eqn:Ed.
  { by rewrite (zipwith_inl _ _ _ _ Ed). }
  cbn [rbind]. destruct (matmul delta (ones (ncols y) 1)) as [e|gb] eqn:Egb.
  { by rewrite (matmul_inl _ _ _ Egb). }
  cbn [rbind]. destruct (matmul delta (transpose a)) as [e|gw] eqn:Egw.
  { by rewrite (matmul_inl _ _ _ Egw). }
  apply matmul_inr in Egb as [Egb _]. apply matmul_inr in Egw as [Egw _].
  apply shape_inv in Sha as [_ Hac]. cbn in Egb, Egw. congruence.
Qed.

(** X9.  A target with a single row.  After [forward] on an initialized
    model of at least one layer, [backward] accepts a target of one row and
    batch-size columns whatever the width of the output layer: the
    subtraction broadcasts it over the output units.  The call returns and
    stores one gradient per layer, shaped like the weights and biases. *)
Theorem backward_accepts_row_target (dimensions : list Z) (s s' : rng)
    (m0 m : model F) (x out y : ndarray F) :
  initialize_model gauss can_alloc dimensions s = (inr m0, s') →
  2 ≤ length dimensions →
  forward x m0 = (inr out, m) →
  shape y = (1, ncols x) →
  ∃ gws gbs,
    backward y m = (inr tt, <["grad_biases" := VList gbs]>
                             (<["grad_weights" := VList gws]> m))
    ∧ length gws = length dimensions - 1
    ∧ length gbs = length dimensions - 1
    ∧ ∀ l, 1 ≤ l ≤ length dimensions - 1 →
        ∃ gw gb,
          gws !! (l - 1) = Some gw
          ∧ gbs !! (l - 1) = Some gb
          ∧ shape gw = (dim_at dimensions l, dim_at dimensions (l - 1))
          ∧ shape gb = (dim_at dimensions l, 1).
Proof.
  intros Einit Hlen Efwd Hy.
  destruct (forward_on_initialized _ _ _ _ _ _ _ Einit Hlen Efwd)
    as (ws & bs & activations & zs & Hw & Ha & Hz & Hsh & La & Lz & Sa & Sz & _).
  destruct (backward_indexed dimensions ws bs activations zs (ncols x)
              Hlen Hsh La Lz Sa Sz)
    as (aL & zL & a & HaL & HzL & Hal & EaL & EzL & Ea & ShaL & ShzL & Sha).
  pose proof Hsh as (Lw & _).
  assert (HL : 1 ≤ length ws) by lia.
  apply shape_inv in Hy as [Hyr Hyc].
  pose proof (shape_inv _ _ _ ShaL) as [_ HaLc].
  destruct (zipwith_row fsub aL y Hyr ltac:(congruence)) as (lp & Elp & Slp).
  fold (sub aL y) in Elp. fold (loss_prime aL y) in Elp.
  destruct (g_prime_ok zL) as (gp & Egp & Sgp).
  destruct (zipwith_same_shape fmul lp gp ltac:(by rewrite Slp, Sgp, ShaL, ShzL))
    as (delta & Ed & Sd).
  fold (mul lp gp) in Ed.
  assert (Sdl : shape delta = (dim_at dimensions (S (length ws - 1)), ncols x)).
  { rewrite Sd, Slp, ShaL. by replace (S (length ws - 1)) with (length ws) by lia. }
  destruct (layer_gradients dimensions (ncols x) (length ws - 1) delta a Sdl Sha)
    as (gb & gw & Egb & Egw & Sgw & Sgb).
  replace (S (length ws - 1)) with (length ws) in * by lia.
  assert (Hd : spec_delta ws zs activations y (length ws) delta)
    by (by eapply delta_output).
  assert (Hinv : grads_inv dimensions ws zs activations y (ncols x) 1 [gw] [gb]).
  { split; [done|]. split; [done|].
    intros k Hk. assert (k = 0) as -> by lia. rewrite !Nat.sub_0_r.
    exists delta, a, gw, gb. by do 7 (split; [done|]). }
  destruct (backward_loop_inv dimensions ws bs zs activations y (ncols x)
              Hlen Hsh La Lz Sa Sz (length ws - 1) 0 delta [gw] [gb] ltac:(lia))
    as (gws & gbs & Eloop & Lgw & Lgb & Hk); [by rewrite Nat.sub_0_r..|done|].
  rewrite drop_0 in Eloop.
  exists (rev gws), (rev gbs).
  split; [|split; [rewrite length_rev; lia|split; [rewrite length_rev; lia|]]].
  - rewrite (backward_eval y m activations zs ws Ha Hz Hw).
    unfold backward_core. rewrite EaL, EzL, Ea. cbn [rbind].
    rewrite Elp. cbn [rbind]. rewrite Egp. cbn [rbind]. rewrite Ed. cbn [rbind].
    rewrite Hyc, Egb. cbn [rbind]. rewrite Egw. cbn [rbind]. by rewrite Eloop.
  - intros l Hl.
    destruct (Hk (length ws - l) ltac:(lia))
      as (d & a0 & gw0 & gb0 & _ & _ & Hgw & Hgb & _ & _ & Sgw0 & Sgb0).
    replace (length ws - (length ws - l)) with l in * by lia.
    replace (length ws - 1 - (length ws - l)) with (l - 1) in * by lia.
    exists gw0, gb0. rewrite !rev_lookup_lt by lia. rewrite Lgw, Lgb.
    replace (length ws - 1 - (l - 1)) with (length ws - l) by lia. done.
Qed.

End TargetShapes.

(** ** Models without layers *)

Section NoLayers.
Context {F : Type} `{Float F}.

(** X10.  No layers.  When the model's weights or biases list is empty,
    [forward] returns its input as the output, whatever its shape, and
    records it as the only activation; [backward] on the resulting dict
    then raises [IndexError] at [model['w_inputs'][-1]] and leaves the
    dict as it is. *)
Theorem no_layers_forward_then_backward (x y : ndarray F) (m : model F)
    (ws bs : list (ndarray F)) :
  m !! "weights" = Some (VList ws) →
  m !! "biases" = Some (VList bs) →
  ws = [] ∨ bs = [] →
  let m' := <["w_inputs" := VList []]> (<["activations" := VList [x]]> m) in
  forward x m = (inr x, m')
  ∧ backward y m' = (inl IndexError, m').
Proof.
  intros Hw Hb Hempty m'.
  assert (Hzip : zip ws bs = []).
  { destruct Hempty as [-> | ->]; [done|]. by destruct ws. }
  split.
  - rewrite forward_eval, Hw, Hb. cbn [as_list]. by rewrite Hzip.
  - rewrite (backward_eval y m' [x] [] ws).
    + done.
    + subst m'. rewrite lookup_insert_ne by done. apply lookup_insert_eq.
    + subst m'. apply lookup_insert_eq.
    + subst m'. by rewrite !lookup_insert_ne.
Qed.

End NoLayers.

(** ** More on [update] and [initialize_model] *)

Section MoreUpdate.
Context {F : Type} `{Float F}.

(** The deleting loop stops at the first key that is not in the dict. *)
Lemma del_keys_first_missing (pre : list string) :
  ∀ (k : string) (post : list string) (m : model F),
    NoDup pre →
    (∀ k', k' ∈ pre → is_Some (m !! k')) →
    m !! k = None →
    del_keys (pre ++ k :: post) m
    = (inl (KeyError k), foldl (λ acc k', delete k' acc) m pre).
Proof.
  induction pre as [|p pre IH]; intros k post m Hnd Hpre Hk.
  - cbn [app del_keys foldl]. apply bind_inl. unfold delitem. by rewrite Hk.
  - apply NoDup_cons in Hnd as [Hp Hnd].
    destruct (Hpre p ltac:(by left)) as [v Hv].
    cbn [app del_keys foldl].
    rewrite (bind_inr _ _ _ _ _ (delitem_Some _ _ _ Hv)).
    apply IH; [done| |].
    + intros k' Hk'. rewrite lookup_delete_ne; [apply Hpre; by right|].
      intros ->. done.
    + apply lookup_delete_None. by right.
Qed.

(** X11.  [update] on a dict that lacks a transient entry.  The four [del]s
    run in the order ['activations'], ['w_inputs'], ['grad_weights'],
    ['grad_biases'] and the first entry that is missing raises its
    [KeyError]; the entries before it have been deleted by then and stay
    deleted.  After [forward] alone, for instance, [update] removes the
    recorded activations and weighted inputs and raises
    [KeyError('grad_weights')]. *)
Theorem update_stops_at_first_missing_key (eta : F) (m : model F)
    (pre : list string) (k : string) (post : list string) :
  ["activations"; "w_inputs"; "grad_weights"; "grad_biases"] = pre ++ k :: post →
  (∀ k', k' ∈ pre → is_Some (m !! k')) →
  m !! k = None →
  update eta m = (inl (KeyError k), foldl (λ acc k', delete k' acc) m pre).
Proof.
  intros Hkeys Hpre Hk. unfold update. rewrite Hkeys.
  apply bind_inl, del_keys_first_missing; [|done..].
  assert (Hnd : NoDup ["activations"; "w_inputs"; "grad_weights"; "grad_biases"]).
  { compute_done. }
  rewrite Hkeys in Hnd. by apply NoDup_app in Hnd as [? _].
Qed.

(** [update] raises and leaves weights and biases alone. *)
Lemma update_outcome (eta : F) (m : model F) :
  ∃ key m',
    update eta m = (inl (KeyError key), m')
    ∧ m' !! "weights" = m !! "weights"
    ∧ m' !! "biases" = m !! "biases".
Proof.
  unfold update.
  destruct (del_keys_outcome ["activations"; "w_inputs"; "grad_weights"; "grad_biases"] m)
    as [(k & m' & E & Hout)|(m' & E & Hin & Hout)].
  - exists k, m'. rewrite (bind_inl _ _ _ _ _ E).
    split; [done|]. split; apply Hout; compute_done.
  - rewrite (bind_inr _ _ _ _ _ E).
    destruct (update_reads_after_delete eta m') as (key & E' & _).
    { apply Hin. compute_done. }
    exists key, m'. cbv beta. rewrite E'.
    split; [done|]. split; apply Hout; compute_done.
Qed.

End MoreUpdate.

Section MoreInitialize.
Context {F : Type} `{Float F}.
Context {rng : Type} (gauss : rng → F * rng) (can_alloc : Z → bool).

(** X12.  Fewer than two widths.  [initialize_model] then runs no iteration:
    whatever the entries, it draws nothing from the generator and returns
    a model with empty weights and biases lists and
    [nlayers = len(dimensions) - 1], which is -1 for the empty list. *)
Theorem initialize_model_short_list (dimensions : list Z) (s : rng) :
  length dimensions < 2 →
  initialize_model gauss can_alloc dimensions s
  = (inr (<["nlayers" := VInt (Z.of_nat (length dimensions) - 1)]>
          (<["biases" := VList []]> (<["weights" := VList []]> ∅))), s).
Proof.
  intros Hlen. destruct dimensions as [|d [|d' dimensions]]; [done|done|].
  cbn [length] in Hlen. lia.
Qed.

End MoreInitialize.

(** ** The training loops *)

Section TrainingLoops.
Context {F : Type} `{Float F}.

Lemma forward_keeps_params (x : ndarray F) (m : model F) :
  (forward x m).2 !! "weights" = m !! "weights"
  ∧ (forward x m).2 !! "biases" = m !! "biases".
Proof.
  rewrite forward_eval.
  repeat case_match; cbn [snd]; by rewrite ?lookup_insert_ne.
Qed.

Lemma backward_keeps_params (y : ndarray F) (m : model F) :
  (backward y m).2 !! "weights" = m !! "weights"
  ∧ (backward y m).2 !! "biases" = m !! "biases".
Proof.
  destruct (backward_writes_only_gradients y m) as [->|(gws & gbs & ->)];
    [done|].
  cbn [snd]. by rewrite !lookup_insert_ne.
Qed.

Lemma py_range_pos (n : Z) :
  (0 < n)%Z → ∃ rest, py_range n = 0%Z :: rest.
Proof.
  intros Hn. unfold py_range.
  destruct (Z.to_nat n) as [|k] eqn:E; [lia|]. cbn. by eexists.
Qed.

(** One pass through [forward], [backward], [update] never reaches what
    follows it. *)
Lemma epoch_raises {S A} (eta : F) (X y : ndarray F)
    (k : ndarray F → M (model F * S) A) (m : model F) (o : S) :
  ∃ e m',
    (yhat <- on_model (forward X) ;;
     on_model (backward y) ;;
     on_model (update eta) ;;
     k yhat) (m, o) = (inl e, (m', o))
    ∧ m' !! "weights" = m !! "weights"
    ∧ m' !! "biases" = m !! "biases".
Proof.
  pose proof (forward_keeps_params X m) as [Fw Fb].
  unfold bind, on_model. cbn [fst snd].
  destruct (forward X m) as [[e|yhat] m1]; cbn [fst snd] in *.
  { exists e, m1. by split. }
  pose proof (backward_keeps_params y m1) as [Bw Bb].
  destruct (backward y m1) as [[e|[]] m2]; cbn [fst snd] in *.
  { exists e, m2. split; [done|]. split; congruence. }
  destruct (update_outcome eta m2) as (key & m3 & -> & Uw & Ub).
  exists (KeyError key), m3. split; [done|]. split; congruence.
Qed.

(** X13.  The first training loop as written.  For any model, input, target
    and learning rate and any positive number of epochs, the loop raises
    during epoch 0 (at the latest in [update]): no line is ever printed and
    the weights and biases never change. *)
Theorem train_never_reports (n_epochs : Z) (eta : F) (X y : ndarray F)
    (m : model F) (printed : list (Z * F)) :
  (0 < n_epochs)%Z →
  ∃ e m',
    train n_epochs eta X y (m, printed) = (inl e, (m', printed))
    ∧ m' !! "weights" = m !! "weights"
    ∧ m' !! "biases" = m !! "biases".
Proof.
  intros Hn. destruct (py_range_pos n_epochs Hn) as [rest Hr].
  unfold train. rewrite Hr. cbn [train_epochs]. apply epoch_raises.
Qed.

(** X14.  The second training loop as written.  For any positive number of
    epochs it raises during epoch 0 as well: the lists [epochs] and
    [losses] stay as they were, so nothing is collected for the plot, and
    the weights and biases never change. *)
Theorem train_plot_never_records (n_epochs : Z) (eta : F) (X y : ndarray F)
    (m : model F) (epochs : list Z) (losses : list F) :
  (0 < n_epochs)%Z →
  ∃ e m',
    train_plot n_epochs eta X y (m, (epochs, losses)) = (inl e, (m', (epochs, losses)))
    ∧ m' !! "weights" = m !! "weights"
    ∧ m' !! "biases" = m !! "biases".
Proof.
  intros Hn. destruct (py_range_pos n_epochs Hn) as [rest Hr].
  unfold train_plot. rewrite Hr. cbn [train_plot_epochs]. apply epoch_raises.
Qed.

End TrainingLoops.

(** ** Entries of arrays *)

Section Entries.
Context {F : Type} `{Float F}.

Lemma lookup_map {A B} (h : A → B) (l : list A) (i : nat) :
  map h l !! i = h <$> l !! i.
Proof. revert i. induction l as [|a l IH]; intros [|i]; cbn; auto. Qed.

Lemma flat_rows_lookup (f : nat → nat → F) (c : nat) :
  ∀ r a i j, i < r → j < c →
    flat_map (λ i, map (f i) (seq 0 c)) (seq a r) !! (i * c + j) = Some (f (a + i) j).
Proof.
  induction r as [|r IH]; intros a i j Hi Hj; [lia|].
  cbn [seq flat_map]. destruct i as [|i].
  - rewrite lookup_app_l by (rewrite length_map, length_seq; lia).
    rewrite lookup_map, lookup_seq_lt by done. cbn. by rewrite Nat.add_0_r.
  - rewrite lookup_app_r by (rewrite length_map, length_seq; lia).
    rewrite length_map, length_seq.
    replace (S i * c + j - c) with (i * c + j) by lia.
    rewrite IH by lia. do 2 f_equal. lia.
Qed.

Lemma flat_rows_length (f : nat → nat → F) (c : nat) :
  ∀ r a, length (flat_map (λ i, map (f i) (seq 0 c)) (seq a r)) = r * c.
Proof.
  induction r as [|r IH]; intros a; [done|].
  cbn [seq flat_map]. rewrite length_app, length_map, length_seq, IH. lia.
Qed.

Lemma well_formed_tabulate (r c : nat) (f : nat → nat → F) :
  well_formed (tabulate r c f).
Proof. unfold well_formed, tabulate. cbn. apply flat_rows_length. Qed.

(** every entry of a tabulated array is one of the values tabulated *)
Lemma tabulate_Forall (P : F → Prop) (r c : nat) (f : nat → nat → F) :
  (∀ i j, i < r → j < c → P (f i j)) → Forall P (buf (tabulate r c f)).
Proof.
  intros Hf. apply Forall_lookup. intros idx v Hv.
  pose proof (lookup_lt_Some _ _ _ Hv) as Hlt.
  cbn [tabulate buf] in Hlt, Hv. rewrite flat_rows_length in Hlt.
  assert (Hc : 0 < c) by (destruct c; lia).
  assert (Hidx : idx = idx `div` c * c + idx `mod` c).
  { rewrite Nat.mul_comm. apply Nat.div_mod_eq. }
  assert (Hi : idx `div` c < r) by (apply Nat.Div0.div_lt_upper_bound; lia).
  assert (Hj : idx `mod` c < c) by (apply Nat.mod_upper_bound; lia).
  rewrite Hidx, (flat_rows_lookup f c r 0 _ _ Hi Hj) in Hv.
  injection Hv as <-. by apply Hf.
Qed.

(** an entry of a well-formed array lies in its buffer *)
Lemma item_in_buf (A : ndarray F) (i j : nat) :
  well_formed A → i < nrows A → j < ncols A → item A i j ∈ buf A.
Proof.
  intros Hwf Hi Hj. unfold item.
  assert (Hlt : i * ncols A + j < length (buf A)) by (rewrite Hwf; nia).
  destruct (lookup_lt_is_Some_2 _ _ Hlt) as [v Hv].
  rewrite (nth_lookup_Some _ _ _ _ Hv). by eapply list_elem_of_lookup_2.
Qed.

(** the position [bitem] reads is inside the array *)
Lemma bitem_in_buf (A : ndarray F) (i j : nat) :
  well_formed A →
  (nrows A = 1 ∨ i < nrows A) → (ncols A = 1 ∨ j < ncols A) →
  bitem A i j ∈ buf A.
Proof.
  intros Hwf Hi Hj. unfold bitem. apply item_in_buf; [done| |].
  - destruct (nrows A =? 1) eqn:E; [apply Nat.eqb_eq in E; lia|].
    apply Nat.eqb_neq in E. lia.
  - destruct (ncols A =? 1) eqn:E; [apply Nat.eqb_eq in E; lia|].
    apply Nat.eqb_neq in E. lia.
Qed.

End Entries.

(** ** The loss on equal arguments *)

Section LossFacts.
Context {F : Type} `{Float F}.

Lemma sub_self (v : ndarray F) :
  well_formed v →
  (∀ a, a ∈ buf v → fsub a a = fzero) →
  sub v v = inr (zeros (nrows v) (ncols v)).
Proof.
  intros Hwf Hsub. unfold sub, zipwith. rewrite !broadcast_dim_same.
  f_equal. unfold zeros.
  set (t := tabulate _ _ _).
  assert (Hall : Forall (eq fzero) (buf t)).
  { apply tabulate_Forall. intros i j Hi Hj. symmetry. apply Hsub.
    apply bitem_in_buf; [done|by right..]. }
  apply Forall_eq_repeat in Hall.
  assert (Hlen : length (buf t) = nrows v * ncols v) by apply well_formed_tabulate.
  rewrite Hlen in Hall. subst t. unfold tabulate in *. cbn [buf] in Hall.
  by rewrite Hall.
Qed.

Lemma asum_square_zeros (r c : nat) :
  fmul fzero fzero = fzero →
  fadd fzero fzero = fzero →
  asum (square (zeros r c)) = fzero.
Proof.
  intros Hmul Hadd. unfold asum, square, zeros, amap. cbn [buf].
  induction (r * c) as [|k IH]; [done|].
  cbn [repeat map fold_left]. by rewrite Hmul, Hadd.
Qed.

(** X15.  The gradient of the loss at equal arguments.  For an array whose
    entries all satisfy [a - a = 0.0] (every finite float does),
    [loss_prime(v, v)] is the array of zeros of the shape of [v]. *)
Theorem loss_prime_self (v : ndarray F) :
  well_formed v →
  (∀ a, a ∈ buf v → fsub a a = fzero) →
  loss_prime v v = inr (zeros (nrows v) (ncols v)).
Proof. intros Hwf Hsub. unfold loss_prime. by apply sub_self. Qed.

(** X16.  The loss at equal arguments.  Under the same condition on the
    entries, and with [0.0 * 0.0 = 0.0], [0.0 + 0.0 = 0.0] and
    [0.5 * 0.0 = 0.0], [loss(v, v)] is [0.0]. *)
Theorem loss_self (v : ndarray F) :
  well_formed v →
  (∀ a, a ∈ buf v → fsub a a = fzero) →
  fmul fzero fzero = fzero →
  fadd fzero fzero = fzero →
  fmul fhalf fzero = fzero →
  loss v v = inr fzero.
Proof.
  intros Hwf Hsub Hmul Hadd Hhalf. unfold loss.
  rewrite (sub_self v Hwf Hsub). cbn [rbind].
  by rewrite (asum_square_zeros _ _ Hmul Hadd), Hhalf.
Qed.

End LossFacts.

(** ** The values [initialize_model] draws *)

Section Draws.
Context {F : Type} `{Float F}.
Context {rng : Type} (gauss : rng → F * rng) (can_alloc : Z → bool).

Lemma draws_length (k : nat) (s : rng) : length (draws gauss k s).1 = k.
Proof.
  revert s. induction k as [|k IH]; intros s; [done|].
  cbn [draws]. destruct (gauss s) as [v s1]. specialize (IH s1).
  destruct (draws gauss k s1) as [xs s2]. cbn in *. by rewrite IH.
Qed.

Lemma draws_app (a b : nat) (s : rng) :
  draws gauss (a + b) s
  = ((draws gauss a s).1 ++ (draws gauss b (draws gauss a s).2).1,
     (draws gauss b (draws gauss a s).2).2).
Proof.
  revert s. induction a as [|a IH]; intros s.
  - cbn. by destruct (draws gauss b s).
  - cbn [Nat.add draws]. destruct (gauss s) as [v s1]. rewrite IH.
    destruct (draws gauss a s1) as [xs s2]. cbn [fst snd].
    by destruct (draws gauss b s2).
Qed.

Lemma init_loop_draws (dimensions : list Z) (k : nat) :
  ∀ (j : nat) (weights biases : list (ndarray F)) (s : rng),
    (0 < k → j + k < length dimensions) →
    (∀ i, j ≤ i < j + k → layer_fits can_alloc dimensions i) →
    let N := foldr Nat.add 0
               (map (λ l, dim_at dimensions (S l) * dim_at dimensions l
                          + dim_at dimensions (S l) * 1) (seq j k)) in
    ∃ ws bs,
      init_loop gauss can_alloc dimensions (map Z.of_nat (seq j k)) weights biases s
      = (inr (weights ++ ws, biases ++ bs), (draws gauss N s).2)
      ∧ length ws = k ∧ length bs = k
      ∧ Forall well_formed ws ∧ Forall well_formed bs
      ∧ concat (zip_with (λ W b, buf W ++ buf b) ws bs) = (draws gauss N s).1.
Proof.
  induction k as [|k IH]; intros j weights biases s Hlen Hfits N.
  - exists [], []. subst N. cbn. by rewrite !app_nil_r.
  - subst N. cbn [seq map foldr init_loop].
    assert (Hj : j < length dimensions) by lia.
    assert (HSj : S j < length dimensions) by lia.
    replace (Z.of_nat j + 1)%Z with (Z.of_nat (S j)) by lia.
    rewrite (bind_inr _ _ s _ s (f_equal (λ r, (r, s)) (py_index_dims dimensions (S j) HSj))).
    rewrite (bind_inr _ _ s _ s (f_equal (λ r, (r, s)) (py_index_dims dimensions j Hj))).
    destruct (Hfits j ltac:(lia)) as (Hv & HmW & Hmb).
    rewrite <- (Z.mul_1_r (itemsize * _)) in Hmb.
    rewrite (bind_inr _ _ _ _ _ (randn_ok gauss can_alloc _ _ s Hv HmW)).
    set (s1 := (draws gauss _ s).2). set (xs := (draws gauss _ s).1).
    set (W := mkArr _ _ xs).
    rewrite (bind_inr _ _ s1 _ s1 (f_equal (λ r, (r, s1)) (py_index_dims dimensions (S j) HSj))).
    rewrite (bind_inr _ _ _ _ _
               (randn_ok gauss can_alloc _ 1 s1 (valid_extents_column _ _ Hv) Hmb)).
    set (s2 := (draws gauss _ s1).2). set (ys := (draws gauss _ s1).1).
    set (b := mkArr _ _ ys).
    destruct (IH (S j) (weights ++ [W]) (biases ++ [b]) s2 ltac:(lia))
      as (ws & bs & E & Lw & Lb & Ww & Wb & Hflat).
    { intros i Hi. apply Hfits. lia. }
    exists (W :: ws), (b :: bs). rewrite E, <- !app_assoc. cbn [app length].
    subst W b xs ys s1 s2.
    fold (dim_at dimensions (S j)) in *. fold (dim_at dimensions j) in *.
    change (Z.to_nat 1) with 1 in *.
    split.
    { f_equal. rewrite !draws_app. cbn [snd]. done. }
    split; [by rewrite Lw|]. split; [by rewrite Lb|].
    split; [apply Forall_cons; split; [|done]; apply draws_length|].
    split; [apply Forall_cons; split; [|done]; apply draws_length|].
    cbn [zip_with concat buf]. rewrite Hflat, !draws_app. cbn [fst snd].
    by rewrite <- !app_assoc.
Qed.

(** X22.  The values that fill a model.  When every layer can be built
    (valid extents, memory granted), [initialize_model] takes exactly
    [draw_count(dimensions)] values from the generator, one per entry of
    each array, and stores them in the order [W_1], [b_1], [W_2], [b_2],
    ...: the buffers concatenated in that order are the values drawn, and
    the generator is left in the state these draws lead to. *)
Theorem initialize_model_draws (dimensions : list Z) (s : rng) :
  (∀ l, S l < length dimensions → layer_fits can_alloc dimensions l) →
  ∃ ws bs,
    initialize_model gauss can_alloc dimensions s
    = (inr (<["nlayers" := VInt (Z.of_nat (length dimensions) - 1)]>
            (<["biases" := VList bs]> (<["weights" := VList ws]> ∅))),
       (draws gauss (draw_count dimensions) s).2)
    ∧ Forall well_formed ws
    ∧ Forall well_formed bs
    ∧ concat (zip_with (λ W b, buf W ++ buf b) ws bs)
      = (draws gauss (draw_count dimensions) s).1.
Proof.
  intros Hfits. unfold initialize_model, py_range, draw_count.
  replace (Z.to_nat (Z.of_nat (length dimensions) - 1)) with (length dimensions - 1)
    by lia.
  destruct (init_loop_draws dimensions (length dimensions - 1) 0 [] [] s ltac:(lia))
    as (ws & bs & E & _ & _ & Ww & Wb & Hflat).
  { intros i Hi. apply Hfits. lia. }
  exists ws, bs. by rewrite (bind_inr _ _ _ _ _ E).
Qed.

End Draws.

(** ** The gradients at a perfect fit *)

Section PerfectFit.
Context {F : Type} `{Float F}.
Context {rng : Type} (gauss : rng → F * rng) (can_alloc : Z → bool).

(** [is_zero] holds of the zeros of the arithmetic and [ordinary] of the
    values on which a zero behaves as one; for float64 these are [0.0] and
    [-0.0], and the finite numbers. *)
Variables (is_zero ordinary : F → Prop).
Hypothesis H_zero : is_zero fzero.
Hypothesis H_ord_zero : ordinary fzero.
Hypothesis H_ord_one : ordinary fone.
Hypothesis H_add : ∀ a b, is_zero a → is_zero b → is_zero (fadd a b).
Hypothesis H_mul_l : ∀ a b, is_zero a → ordinary b → is_zero (fmul a b).
Hypothesis H_mul_r : ∀ a b, ordinary a → is_zero b → is_zero (fmul a b).
Hypothesis H_sub : ∀ a, ordinary a → is_zero (fsub a a).

Lemma item_Forall (P : F → Prop) (A : ndarray F) (i j : nat) :
  P fzero → Forall P (buf A) → P (item A i j).
Proof.
  intros H0 HA. unfold item. rewrite nth_lookup.
  destruct (buf A !! _) as [v|] eqn:Hv; [|done].
  by eapply Forall_lookup_1.
Qed.

Lemma bitem_Forall (P : F → Prop) (A : ndarray F) (i j : nat) :
  P fzero → Forall P (buf A) → P (bitem A i j).
Proof. intros H0 HA. unfold bitem. by apply item_Forall. Qed.

Lemma transpose_Forall (P : F → Prop) (A : ndarray F) :
  P fzero → Forall P (buf A) → Forall P (buf (transpose A)).
Proof.
  intros H0 HA. apply tabulate_Forall. intros i j _ _. by apply item_Forall.
Qed.

(** a sum of zeros, whatever it starts from among them *)
Lemma fold_zero (l : list nat) (f : nat → F) (acc : F) :
  is_zero acc → (∀ k, is_zero (f k)) → is_zero (fold_left fadd (map f l) acc).
Proof.
  revert acc. induction l as [|k l IH]; intros acc Hacc Hf; [done|].
  cbn. apply IH; [|done]. by apply H_add.
Qed.

Lemma matmul_zero_l (A B C : ndarray F) :
  Forall is_zero (buf A) → Forall ordinary (buf B) →
  matmul A B = inr C → Forall is_zero (buf C).
Proof.
  intros HA HB. unfold matmul. case_match; [|done]. intros [= <-].
  apply tabulate_Forall. intros i j _ _. apply fold_zero; [done|].
  intros k. apply H_mul_l; by apply item_Forall.
Qed.

Lemma matmul_zero_r (A B C : ndarray F) :
  Forall ordinary (buf A) → Forall is_zero (buf B) →
  matmul A B = inr C → Forall is_zero (buf C).
Proof.
  intros HA HB. unfold matmul. case_match; [|done]. intros [= <-].
  apply tabulate_Forall. intros i j _ _. apply fold_zero; [done|].
  intros k. apply H_mul_r; by apply item_Forall.
Qed.

Lemma mul_zero_l (A B C : ndarray F) :
  Forall is_zero (buf A) → Forall ordinary (buf B) →
  mul A B = inr C → Forall is_zero (buf C).
Proof.
  intros HA HB. unfold mul, zipwith. repeat case_match; try done. intros [= <-].
  apply tabulate_Forall. intros i j _ _. apply H_mul_l; by apply bitem_Forall.
Qed.

Lemma sub_same_zero (A C : ndarray F) :
  Forall ordinary (buf A) → sub A A = inr C → Forall is_zero (buf C).
Proof.
  intros HA. unfold sub, zipwith. repeat case_match; try done. intros [= <-].
  apply tabulate_Forall. intros i j _ _. apply H_sub. by apply bitem_Forall.
Qed.

(** with the target equal to the last activation every error term is zero *)
Lemma spec_delta_zero (ws zs activations : list (ndarray F)) (y d : ndarray F) (l : nat) :
  Forall (λ W, Forall ordinary (buf W)) ws →
  Forall ordinary (buf y) →
  (∀ z gp, z ∈ zs → g_prime z = inr gp → Forall ordinary (buf gp)) →
  activations !! length ws = Some y →
  spec_delta ws zs activations y l d →
  Forall is_zero (buf d).
Proof.
  intros Hws Hy_ord Hgp Hy Hd.
  induction Hd as [aL zL lg gp d HaL HzL Elg Egp Ed
                  |l W z d t gp d' Hl Hprev IH HW Hz Et Egp Ed].
  - rewrite Hy in HaL. injection HaL as <-.
    apply (mul_zero_l lg gp d); [| |exact Ed].
    + by apply (sub_same_zero y).
    + apply (Hgp zL); [|done]. by eapply list_elem_of_lookup_2.
  - apply (mul_zero_l t gp d'); [| |exact Ed].
    + apply (matmul_zero_r (transpose W) d t); [|done|done].
      apply transpose_Forall; [done|]. exact (Forall_lookup_1 _ _ _ _ Hws HW).
    + apply (Hgp z); [|done]. by eapply list_elem_of_lookup_2.
Qed.

(** X24.  The gradients at a perfect fit.  After [forward] on an
    initialized model of at least one layer, [backward] with the returned
    output as its target stores gradients whose entries are all zeros,
    provided no entry of the weights, of the recorded activations or of
    [g_prime] of a recorded weighted input is out of the ordinary (for
    float64: none is infinite or NaN).  The arithmetic is any in which
    [a - a] is a zero, a zero times an ordinary value is a zero and a sum of
    zeros is a zero, as in float64 with its two zeros. *)
Theorem backward_at_perfect_fit (dimensions : list Z) (s s' : rng)
    (m0 m : model F) (x out : ndarray F) (ws activations zs : list (ndarray F)) :
  initialize_model gauss can_alloc dimensions s = (inr m0, s') →
  2 ≤ length dimensions →
  forward x m0 = (inr out, m) →
  m !! "weights" = Some (VList ws) →
  m !! "activations" = Some (VList activations) →
  m !! "w_inputs" = Some (VList zs) →
  Forall (λ W, Forall ordinary (buf W)) ws →
  Forall (λ a, Forall ordinary (buf a)) activations →
  (∀ z gp, z ∈ zs → g_prime z = inr gp → Forall ordinary (buf gp)) →
  ∃ gws gbs,
    backward out m = (inr tt, <["grad_biases" := VList gbs]>
                                (<["grad_weights" := VList gws]> m))
    ∧ length gws = length dimensions - 1
    ∧ length gbs = length dimensions - 1
    ∧ Forall (λ gw, Forall is_zero (buf gw)) gws
    ∧ Forall (λ gb, Forall is_zero (buf gb)) gbs.
Proof.
  intros Einit Hlen Efwd Hmw Hma Hmz Hws Hacts Hgp.
  destruct (forward_on_initialized gauss can_alloc _ _ _ _ _ _ _ Einit Hlen Efwd)
    as (ws1 & bs1 & acts1 & zs1 & Hw1 & Ha1 & _ & _ & _ & _ & _ & _ & Hout).
  rewrite Hmw in Hw1. rewrite Hma in Ha1. injection Hw1 as <-. injection Ha1 as <-.
  destruct (forward_backward gauss can_alloc _ _ _ _ _ _ _ out Einit Hlen Efwd eq_refl)
    as (ws2 & bs & acts2 & zs2 & gws & gbs & -> & -> & Hsh & Ebwd & Lgw & Lgb & Hgrad).
  rewrite !lookup_insert_ne in Hmw by done. rewrite lookup_insert_eq in Hmw.
  rewrite lookup_insert_ne in Hma by done. rewrite lookup_insert_eq in Hma.
  rewrite lookup_insert_eq in Hmz.
  injection Hmw as ->. injection Hma as ->. injection Hmz as ->.
  pose proof Hsh as (Lw & _).
  assert (Hout_ord : Forall ordinary (buf out))
    by exact (Forall_lookup_1 _ _ _ _ Hacts Hout).
  exists gws, gbs. split; [done|]. split; [lia|]. split; [lia|].
  split; apply Forall_lookup; intros i g0 Hg0;
    pose proof (lookup_lt_Some _ _ _ Hg0) as Hi;
    destruct (Hgrad (S i) ltac:(lia))
      as (d & a & gw & gb & Hd & Ha & Hgw & Hgb & Egb & Egw & _);
    cbn [Nat.sub] in Ha, Hgw, Hgb; rewrite Nat.sub_0_r in Ha, Hgw, Hgb;
    pose proof (spec_delta_zero _ _ _ _ _ _ Hws Hout_ord Hgp Hout Hd) as Hz.
  - rewrite Hg0 in Hgw. injection Hgw as <-.
    apply (matmul_zero_l d (transpose a)); [done| |done].
    apply transpose_Forall; [done|]. exact (Forall_lookup_1 _ _ _ _ Hacts Ha).
  - rewrite Hg0 in Hgb. injection Hgb as <-.
    apply (matmul_zero_l d (ones (ncols out) 1)); [done| |done].
    cbn [ones buf]. apply Forall_forall. intros v Hv.
    by apply list_elem_of_In, repeat_spec in Hv as ->.
Qed.

End PerfectFit.

(** ** Concrete instances of the properties above *)

Lemma forward_missing_params_witness :
  forward ex_x (∅ : model R) = (inl (KeyError "weights"), ∅)
  ∧ forward ex_x (<["weights" := VList []]> ∅ : model R)
    = (inl (KeyError "biases"), <["weights" := VList []]> ∅).
Proof.
  assert (H1 : is_Some ((<["weights" := VList []]> ∅ : model R) !! "weights"))
    by (exists (VList []); reflexivity).
  split.
  - apply (proj1 (forward_missing_params ex_x (∅ : model R))); reflexivity.
  - apply (proj2 (forward_missing_params ex_x (<["weights" := VList []]> ∅)) H1);
      reflexivity.
Defined.

Lemma forward_touches_only_cache_witness :
  (forward ex_x_bad ex_model_2_1).1 = inl (ValueError ShapeMismatch)
  ∧ (forward ex_x_bad ex_model_2_1).2 = ex_model_2_1
  ∧ "nlayers" ≠ "activations" ∧ "nlayers" ≠ "w_inputs"
  ∧ (forward ex_x ex_model_2_1).2 !! "nlayers" = ex_model_2_1 !! "nlayers".
Proof.
  assert (H1 : (forward ex_x_bad ex_model_2_1).1 = inl (ValueError ShapeMismatch))
    by reflexivity.
  assert (H2 : "nlayers" ≠ "activations") by discriminate.
  assert (H3 : "nlayers" ≠ "w_inputs") by discriminate.
  split; [exact H1|].
  split; [exact (proj1 (forward_touches_only_cache ex_x_bad ex_model_2_1) _ H1)|].
  split; [exact H2|]. split; [exact H3|].
  exact (proj2 (forward_touches_only_cache ex_x ex_model_2_1) "nlayers" H2 H3).
Defined.

Lemma forward_records_run_witness :
  forward ex_x ex_model_2_1 = (inr ex_out, ex_model_fwd)
  ∧ ∃ ws bs zs,
      ex_model_2_1 !! "weights" = Some (VList ws)
      ∧ ex_model_2_1 !! "biases" = Some (VList bs)
      ∧ ex_model_fwd = <["w_inputs" := VList zs]>
                         (<["activations" := VList (ex_x :: map g zs)]> ex_model_2_1)
      ∧ length zs = length ws `min` length bs
      ∧ last (ex_x :: map g zs) = Some ex_out.
Proof.
  assert (H1 : forward ex_x ex_model_2_1 = (inr ex_out, ex_model_fwd)) by reflexivity.
  split; [exact H1|].
  exact (forward_records_run ex_x ex_out ex_model_2_1 ex_model_fwd H1).
Defined.

Lemma forward_reads_only_params_witness :
  ex_model_2_1 !! "weights" = ex_model_fwd !! "weights"
  ∧ ex_model_2_1 !! "biases" = ex_model_fwd !! "biases"
  ∧ ((∃ e, forward ex_x ex_model_2_1 = (inl e, ex_model_2_1)
           ∧ forward ex_x ex_model_fwd = (inl e, ex_model_fwd))
     ∨ (∃ out activations zs,
          forward ex_x ex_model_2_1
          = (inr out, <["w_inputs" := VList zs]>
                        (<["activations" := VList activations]> ex_model_2_1))
          ∧ forward ex_x ex_model_fwd
            = (inr out, <["w_inputs" := VList zs]>
                          (<["activations" := VList activations]> ex_model_fwd)))).
Proof.
  assert (H1 : ex_model_2_1 !! "weights" = ex_model_fwd !! "weights") by reflexivity.
  assert (H2 : ex_model_2_1 !! "biases" = ex_model_fwd !! "biases") by reflexivity.
  split; [exact H1|]. split; [exact H2|].
  exact (forward_reads_only_params ex_x ex_model_2_1 ex_model_fwd H1 H2).
Defined.

Lemma forward_twice_witness :
  forward ex_x ex_model_2_1 = (inr ex_out, ex_model_fwd)
  ∧ forward ex_x ex_model_fwd = (inr ex_out, ex_model_fwd).
Proof.
  assert (H1 : forward ex_x ex_model_2_1 = (inr ex_out, ex_model_fwd)) by reflexivity.
  split; [exact H1|].
  exact (forward_twice ex_x ex_out ex_model_2_1 ex_model_fwd H1).
Defined.

Lemma backward_ignores_other_entries_witness :
  "biases" ≠ "activations" ∧ "biases" ≠ "w_inputs" ∧ "biases" ≠ "weights"
  ∧ "biases" ≠ "grad_weights" ∧ "biases" ≠ "grad_biases"
  ∧ backward ex_y (<["biases" := VInt 0]> ex_model_fwd)
    = ((backward ex_y ex_model_fwd).1,
       <["biases" := VInt 0]> (backward ex_y ex_model_fwd).2).
Proof.
  assert (H1 : "biases" ≠ "activations") by done.
  assert (H2 : "biases" ≠ "w_inputs") by done.
  assert (H3 : "biases" ≠ "weights") by done.
  assert (H4 : "biases" ≠ "grad_weights") by done.
  assert (H5 : "biases" ≠ "grad_biases") by done.
  do 5 (split; [done|]).
  exact (backward_ignores_other_entries ex_y ex_model_fwd "biases" (VInt 0)
           H1 H2 H3 H4 H5).
Defined.

Lemma backward_twice_witness :
  backward ex_y ex_model_fwd = (inr tt, ex_model_grads)
  ∧ backward ex_y ex_model_grads = (inr tt, ex_model_grads).
Proof.
  assert (H1 : backward ex_y ex_model_fwd = (inr tt, ex_model_grads)) by reflexivity.
  split; [exact H1|].
  exact (backward_twice ex_y ex_model_fwd ex_model_grads H1).
Defined.

Lemma backward_rejects_wrong_batch_witness :
  initialize_model ex_gauss ex_can_alloc [2%Z; 1%Z] 0 = (inr ex_model_2_1, 3)
  ∧ 2 ≤ length [2%Z; 1%Z]
  ∧ forward ex_x ex_model_2_1 = (inr ex_out, ex_model_fwd)
  ∧ ncols ex_y_wide ≠ ncols ex_x
  ∧ backward ex_y_wide ex_model_fwd = (inl (ValueError ShapeMismatch), ex_model_fwd).
Proof.
  assert (H1 : initialize_model ex_gauss ex_can_alloc [2%Z; 1%Z] 0 = (inr ex_model_2_1, 3))
    by reflexivity.
  assert (H2 : 2 ≤ length [2%Z; 1%Z]) by (simpl; lia).
  assert (H3 : forward ex_x ex_model_2_1 = (inr ex_out, ex_model_fwd)) by reflexivity.
  assert (H4 : ncols ex_y_wide ≠ ncols ex_x) by (simpl; lia).
  do 4 (split; [done|]).
  exact (backward_rejects_wrong_batch ex_gauss ex_can_alloc [2%Z; 1%Z] 0 3 ex_model_2_1
           ex_model_fwd ex_x ex_out ex_y_wide H1 H2 H3 H4).
Defined.

Lemma backward_accepts_row_target_witness :
  initialize_model ex_gauss ex_can_alloc [1%Z; 2%Z] 0 = (inr ex_model_1_2, 4)
  ∧ 2 ≤ length [1%Z; 2%Z]
  ∧ forward ex_x1 ex_model_1_2 = (inr ex_out2, ex_model_1_2_fwd)
  ∧ shape ex_y = (1, ncols ex_x1)
  ∧ ∃ gws gbs,
      backward ex_y ex_model_1_2_fwd
      = (inr tt, <["grad_biases" := VList gbs]>
                   (<["grad_weights" := VList gws]> ex_model_1_2_fwd))
      ∧ length gws = length [1%Z; 2%Z] - 1
      ∧ length gbs = length [1%Z; 2%Z] - 1
      ∧ ∀ l, 1 ≤ l ≤ length [1%Z; 2%Z] - 1 →
          ∃ gw gb,
            gws !! (l - 1) = Some gw
            ∧ gbs !! (l - 1) = Some gb
            ∧ shape gw = (dim_at [1%Z; 2%Z] l, dim_at [1%Z; 2%Z] (l - 1))
            ∧ shape gb = (dim_at [1%Z; 2%Z] l, 1).
Proof.
  assert (H1 : initialize_model ex_gauss ex_can_alloc [1%Z; 2%Z] 0 = (inr ex_model_1_2, 4))
    by reflexivity.
  assert (H2 : 2 ≤ length [1%Z; 2%Z]) by (simpl; lia).
  assert (H3 : forward ex_x1 ex_model_1_2 = (inr ex_out2, ex_model_1_2_fwd))
    by reflexivity.
  assert (H4 : shape ex_y = (1, ncols ex_x1)) by reflexivity.
  do 4 (split; [done|]).
  exact (backward_accepts_row_target ex_gauss ex_can_alloc [1%Z; 2%Z] 0 4 ex_model_1_2
           ex_model_1_2_fwd ex_x1 ex_out2 ex_y H1 H2 H3 H4).
Defined.

Lemma no_layers_forward_then_backward_witness :
  ex_model_5 !! "weights" = Some (VList [])
  ∧ ex_model_5 !! "biases" = Some (VList [])
  ∧ (([] : list (ndarray R)) = [] ∨ ([] : list (ndarray R)) = [])
  ∧ forward ex_x_bad ex_model_5
    = (inr ex_x_bad, <["w_inputs" := VList []]>
                       (<["activations" := VList [ex_x_bad]]> ex_model_5))
  ∧ backward ex_y (<["w_inputs" := VList []]>
                     (<["activations" := VList [ex_x_bad]]> ex_model_5))
    = (inl IndexError, <["w_inputs" := VList []]>
                         (<["activations" := VList [ex_x_bad]]> ex_model_5)).
Proof.
  assert (H1 : ex_model_5 !! "weights" = Some (VList [])) by reflexivity.
  assert (H2 : ex_model_5 !! "biases" = Some (VList [])) by reflexivity.
  assert (H3 : ([] : list (ndarray R)) = [] ∨ ([] : list (ndarray R)) = [])
    by (left; reflexivity).
  do 3 (split; [done|]).
  exact (no_layers_forward_then_backward ex_x_bad ex_y ex_model_5 [] [] H1 H2 H3).
Defined.

Lemma update_stops_at_first_missing_key_witness :
  ["activations"; "w_inputs"; "grad_weights"; "grad_biases"]
  = ["activations"; "w_inputs"] ++ "grad_weights" :: ["grad_biases"]
  ∧ (∀ k', k' ∈ ["activations"; "w_inputs"] → is_Some (ex_model_fwd !! k'))
  ∧ ex_model_fwd !! "grad_weights" = None
  ∧ update 0%R ex_model_fwd
    = (inl (KeyError "grad_weights"),
       foldl (λ acc k', delete k' acc) ex_model_fwd ["activations"; "w_inputs"]).
Proof.
  assert (H1 : ["activations"; "w_inputs"; "grad_weights"; "grad_biases"]
               = ["activations"; "w_inputs"] ++ "grad_weights" :: ["grad_biases"])
    by reflexivity.
  assert (H2 : ∀ k', k' ∈ ["activations"; "w_inputs"] → is_Some (ex_model_fwd !! k')).
  { intros k' Hk'. apply elem_of_cons in Hk' as [->|Hk']; [by eexists|].
    apply elem_of_cons in Hk' as [->|Hk']; [by eexists|]. by apply elem_of_nil in Hk'. }
  assert (H3 : ex_model_fwd !! "grad_weights" = None) by reflexivity.
  do 3 (split; [done|]).
  exact (update_stops_at_first_missing_key 0%R ex_model_fwd _ _ _ H1 H2 H3).
Defined.

Lemma initialize_model_short_list_witness :
  length [5%Z] < 2
  ∧ initialize_model ex_gauss ex_can_alloc [5%Z] 0
    = (inr (<["nlayers" := VInt (Z.of_nat (length [5%Z]) - 1)]>
            (<["biases" := VList []]> (<["weights" := VList []]> ∅))), 0).
Proof.
  assert (H1 : length [5%Z] < 2) by (simpl; lia).
  split; [exact H1|].
  exact (initialize_model_short_list ex_gauss ex_can_alloc [5%Z] 0 H1).
Defined.

Lemma train_never_reports_witness :
  (0 < 30)%Z
  ∧ ∃ e m',
      train 30 (1 / 2)%R ex_x ex_y (ex_model_2_1, []) = (inl e, (m', []))
      ∧ m' !! "weights" = ex_model_2_1 !! "weights"
      ∧ m' !! "biases" = ex_model_2_1 !! "biases".
Proof.
  assert (H1 : (0 < 30)%Z) by lia.
  split; [exact H1|].
  exact (train_never_reports 30 (1 / 2)%R ex_x ex_y ex_model_2_1 [] H1).
Defined.

Lemma train_plot_never_records_witness :
  (0 < 30000)%Z
  ∧ ∃ e m',
      train_plot 30000 (1 / 2)%R ex_x ex_y (ex_model_2_1, ([], []))
      = (inl e, (m', ([], [])))
      ∧ m' !! "weights" = ex_model_2_1 !! "weights"
      ∧ m' !! "biases" = ex_model_2_1 !! "biases".
Proof.
  assert (H1 : (0 < 30000)%Z) by lia.
  split; [exact H1|].
  exact (train_plot_never_records 30000 (1 / 2)%R ex_x ex_y ex_model_2_1 [] [] H1).
Defined.

Lemma loss_prime_self_witness :
  well_formed ex_x
  ∧ (∀ a : R, a ∈ buf ex_x → fsub a a = fzero)
  ∧ loss_prime ex_x ex_x = inr (zeros (nrows ex_x) (ncols ex_x)).
Proof.
  assert (H1 : well_formed ex_x) by reflexivity.
  assert (H2 : ∀ a : R, a ∈ buf ex_x → fsub a a = fzero).
  { intros a _. apply Rminus_diag. }
  split; [exact H1|]. split; [exact H2|].
  exact (loss_prime_self ex_x H1 H2).
Defined.

Lemma loss_self_witness :
  well_formed ex_x
  ∧ (∀ a : R, a ∈ buf ex_x → fsub a a = fzero)
  ∧ fmul (fzero : R) fzero = fzero
  ∧ fadd (fzero : R) fzero = fzero
  ∧ fmul (fhalf : R) fzero = fzero
  ∧ loss ex_x ex_x = inr (fzero : R).
Proof.
  assert (H1 : well_formed ex_x) by reflexivity.
  assert (H2 : ∀ a : R, a ∈ buf ex_x → fsub a a = fzero).
  { intros a _. apply Rminus_diag. }
  assert (H3 : fmul (fzero : R) fzero = fzero) by apply Rmult_0_l.
  assert (H4 : fadd (fzero : R) fzero = fzero) by apply Rplus_0_l.
  assert (H5 : fmul (fhalf : R) fzero = fzero) by apply Rmult_0_r.
  do 5 (split; [done|]).
  exact (loss_self ex_x H1 H2 H3 H4 H5).
Defined.

Lemma initialize_model_draws_witness :
  (∀ l, S l < length [2%Z; 1%Z] → layer_fits ex_can_alloc [2%Z; 1%Z] l)
  ∧ ∃ ws bs,
      initialize_model ex_gauss ex_can_alloc [2%Z; 1%Z] 0
      = (inr (<["nlayers" := VInt (Z.of_nat (length [2%Z; 1%Z]) - 1)]>
              (<["biases" := VList bs]> (<["weights" := VList ws]> ∅))),
         (draws ex_gauss (draw_count [2%Z; 1%Z]) 0).2)
      ∧ Forall well_formed ws
      ∧ Forall well_formed bs
      ∧ concat (zip_with (λ W b, buf W ++ buf b) ws bs)
        = (draws ex_gauss (draw_count [2%Z; 1%Z]) 0).1.
Proof.
  assert (H1 : ∀ l, S l < length [2%Z; 1%Z] → layer_fits ex_can_alloc [2%Z; 1%Z] l).
  { intros l Hl. simpl in Hl. assert (l = 0) as -> by lia. vm_compute.
    split; [|split; reflexivity]. split; [discriminate|]. split; discriminate. }
  split; [exact H1|].
  exact (initialize_model_draws ex_gauss ex_can_alloc [2%Z; 1%Z] 0 H1).
Defined.

Lemma backward_at_perfect_fit_witness :
  (0%R = fzero)
  ∧ (∀ a b : R, 0%R = a → 0%R = b → 0%R = fadd a b)
  ∧ (∀ a b : R, 0%R = a → True → 0%R = fmul a b)
  ∧ (∀ a b : R, True → 0%R = b → 0%R = fmul a b)
  ∧ (∀ a : R, True → 0%R = fsub a a)
  ∧ initialize_model ex_gauss ex_can_alloc [2%Z; 1%Z] 0 = (inr ex_model_2_1, 3)
  ∧ 2 ≤ length [2%Z; 1%Z]
  ∧ forward ex_x ex_model_2_1 = (inr ex_out, ex_model_fwd)
  ∧ ex_model_fwd !! "weights" = Some (VList [mkArr 1 2 [INR 0; INR 1]])
  ∧ ex_model_fwd !! "activations" = Some (VList [ex_x; ex_out])
  ∧ ex_model_fwd !! "w_inputs" = Some (VList [ex_z])
  ∧ ∃ gws gbs,
      backward ex_out ex_model_fwd
      = (inr tt, <["grad_biases" := VList gbs]>
                   (<["grad_weights" := VList gws]> ex_model_fwd))
      ∧ length gws = length [2%Z; 1%Z] - 1
      ∧ length gbs = length [2%Z; 1%Z] - 1
      ∧ Forall (λ gw, Forall (eq 0%R) (buf gw)) gws
      ∧ Forall (λ gb, Forall (eq 0%R) (buf gb)) gbs.
Proof.
  assert (Z0 : 0%R = fzero) by reflexivity.
  assert (Za : ∀ a b : R, 0%R = a → 0%R = b → 0%R = fadd a b).
  { intros a b <- <-. symmetry. apply Rplus_0_l. }
  assert (Zl : ∀ a b : R, 0%R = a → True → 0%R = fmul a b).
  { intros a b <- _. symmetry. apply Rmult_0_l. }
  assert (Zr : ∀ a b : R, True → 0%R = b → 0%R = fmul a b).
  { intros a b _ <-. symmetry. apply Rmult_0_r. }
  assert (Zs : ∀ a : R, True → 0%R = fsub a a).
  { intros a _. symmetry. apply Rminus_diag. }
  assert (H1 : initialize_model ex_gauss ex_can_alloc [2%Z; 1%Z] 0 = (inr ex_model_2_1, 3))
    by reflexivity.
  assert (H2 : 2 ≤ length [2%Z; 1%Z]) by (simpl; lia).
  assert (H3 : forward ex_x ex_model_2_1 = (inr ex_out, ex_model_fwd)) by reflexivity.
  assert (H4 : ex_model_fwd !! "weights" = Some (VList [mkArr 1 2 [INR 0; INR 1]]))
    by reflexivity.
  assert (H5 : ex_model_fwd !! "activations" = Some (VList [ex_x; ex_out]))
    by reflexivity.
  assert (H6 : ex_model_fwd !! "w_inputs" = Some (VList [ex_z])) by reflexivity.
  do 11 (split; [done|]).
  refine (backward_at_perfect_fit ex_gauss ex_can_alloc (eq 0%R) (λ _, True)
            Z0 I I Za Zl Zr Zs [2%Z; 1%Z] 0 3 ex_model_2_1 ex_model_fwd
            ex_x ex_out _ _ _ H1 H2 H3 H4 H5 H6 _ _ _).
  - repeat constructor.
  - repeat constructor.
  - intros z gp _ _. apply Forall_forall. done.
Defined.
